(** * thorchain-tss: the TSS server facade ([tss/tss.go])

    A shallow embedding of the server facade of the TSS node: the
    derivation of the message id of a request ([requestToMsgId]), the
    selection of the join-party variant ([joinParty]), the server
    constructor ([NewTss]) and the [Start]/[Stop] pair, together with the
    process-wide bech32 prefix setup of package [conversion].

    Go strings are byte sequences: they are Rocq [string]s (a list of
    8-bit [ascii]); [[]byte] is [list byte]; [int], [int64] and
    [time.Duration] are [Z]; a nil slice is the empty list. A Go [error]
    is the text of its message. A [(T, error)] pair whose value the
    caller reads only when the error is nil is a [result]; a pair that
    the caller passes on as it is stays a pair, with [None] for the nil
    error. *)

From Stdlib Require Import Strings.String Strings.Ascii Strings.Byte.
From Stdlib Require Import List Bool Lia ZArith NArith.
From Stdlib Require Import Sorting.Permutation Sorting.Sorted.
From Stdlib Require DecimalString DecimalZ DecimalPos.
Import ListNotations.

Local Open Scope string_scope.
Local Open Scope list_scope.

(** ** Go strings and [sort.Strings] *)

Module GoString.

(** Go's [<=] on strings: bytewise lexicographic order. *)
Definition le (s1 s2 : string) : Prop := String.leb s1 s2 = true.

(** [a < b] on strings, as used by [sort.Strings]. *)
Definition less (s1 s2 : string) : bool := String.ltb s1 s2.

(** One step of the insertion: [x] is placed before the first element
    it is strictly less than. *)
Fixpoint insert (x : string) (l : list string) : list string :=
  match l with
  | [] => [x]
  | y :: l' => if less x y then x :: y :: l' else y :: insert x l'
  end.

(** [sort.Strings(x)]: sorts a slice of strings in increasing order.
    The routine belongs to Go's standard library; strings that compare
    equal are equal, so its result is the one sorted arrangement of the
    slice (see [sort_Strings_unique]) whatever algorithm computes it. *)
Definition sort_Strings (l : list string) : list string :=
  fold_right insert [] l.

(** [strings.Join(elems, sep)]. *)
Definition Join (elems : list string) (sep : string) : string :=
  String.concat sep elems.

(** [for _, el := range keys { acc += el }] started from [acc]. *)
Definition accumulate (acc : string) (keys : list string) : string :=
  fold_left (fun a el => (a ++ el)%string) keys acc.

(** [[]byte(s)]. *)
Definition bytes (s : string) : list byte := list_byte_of_string s.

End GoString.

(** ** Results, events and the effect monad *)

(** A Go [error], by its message. *)
Definition error : Type := string.

(** A [(T, error)] result whose value is only read when the error is
    [nil]. *)
Inductive result (A : Type) : Type :=
| Ok (a : A)
| Failed (err : error).
Arguments Ok {A} a.
Arguments Failed {A} err.

(** [fmt.Errorf(msg + ": %w", err)]. *)
Definition wrap (msg : string) (err : error) : error :=
  (msg ++ ": " ++ err)%string.

(** The state of a Go channel value as far as [close] is concerned. *)
Inductive Chan : Type := ChanNil | ChanOpen | ChanClosed.

(** [sync.Mutex]. *)
Inductive Mutex : Type := Unlocked | Locked.

(** A [zerolog.Logger]: the fields of its context. *)
Definition Logger : Type := list (string * string).

Inductive Level : Type := InfoLevel | ErrorLevel.

(** [sdk.Config]: the process-wide bech32 prefixes of the Cosmos SDK, an
    address prefix and a public-key prefix for each of the three kinds
    that [SetupBech32Prefix] sets. *)
Module sdk.
Record Config : Type := mkConfig {
  bech32AccountAddr : string;
  bech32AccountPub : string;
  bech32ValidatorAddr : string;
  bech32ValidatorPub : string;
  bech32ConsensusAddr : string;
  bech32ConsensusPub : string
}.

Definition SetBech32PrefixForAccount (addressPrefix pubKeyPrefix : string)
    (config : Config) : Config :=
  {| bech32AccountAddr := addressPrefix;
     bech32AccountPub := pubKeyPrefix;
     bech32ValidatorAddr := bech32ValidatorAddr config;
     bech32ValidatorPub := bech32ValidatorPub config;
     bech32ConsensusAddr := bech32ConsensusAddr config;
     bech32ConsensusPub := bech32ConsensusPub config |}.

Definition SetBech32PrefixForValidator (addressPrefix pubKeyPrefix : string)
    (config : Config) : Config :=
  {| bech32AccountAddr := bech32AccountAddr config;
     bech32AccountPub := bech32AccountPub config;
     bech32ValidatorAddr := addressPrefix;
     bech32ValidatorPub := pubKeyPrefix;
     bech32ConsensusAddr := bech32ConsensusAddr config;
     bech32ConsensusPub := bech32ConsensusPub config |}.

Definition SetBech32PrefixForConsensusNode
    (addressPrefix pubKeyPrefix : string) (config : Config) : Config :=
  {| bech32AccountAddr := bech32AccountAddr config;
     bech32AccountPub := bech32AccountPub config;
     bech32ValidatorAddr := bech32ValidatorAddr config;
     bech32ValidatorPub := bech32ValidatorPub config;
     bech32ConsensusAddr := addressPrefix;
     bech32ConsensusPub := pubKeyPrefix |}.

(** The SDK's own defaults, in force until a setter is called. *)
Definition defaultConfig : Config :=
  {| bech32AccountAddr := "cosmos";
     bech32AccountPub := "cosmospub";
     bech32ValidatorAddr := "cosmosvaloper";
     bech32ValidatorPub := "cosmosvaloperpub";
     bech32ConsensusAddr := "cosmosvalcons";
     bech32ConsensusPub := "cosmosvalconspub" |}.
End sdk.

(** [common.TssConfig]. Durations are in nanoseconds. *)
Module common.
Record TssConfig : Type := mkTssConfig {
  PartyTimeout : Z;
  KeyGenTimeout : Z;
  KeySignTimeout : Z;
  PreParamTimeout : Z;
  EnableMonitor : bool
}.
End common.

(** [storage.LocalStateManager], the interface, by the one method the
    constructor calls: the saved address-book peers or an error. *)
Module storage.
Record LocalStateManager (Multiaddr : Type) : Type := mkLocalStateManager {
  RetrieveP2PAddresses : result (list Multiaddr)
}.
Arguments mkLocalStateManager {Multiaddr} _.
Arguments RetrieveP2PAddresses {Multiaddr} _.

(** [MockLocalStateManager.RetrieveP2PAddresses] returns [nil, nil]. *)
Definition MockLocalStateManager {Multiaddr : Type}
    : LocalStateManager Multiaddr :=
  mkLocalStateManager (Ok []).
End storage.

(** ** Requests *)

Module keygen.
(** [keygen.Request]: the participants' public keys, the block height
    and the version of the requester. *)
Record Request : Type := mkRequest {
  Keys : list string;
  BlockHeight : Z;
  Version : string
}.
End keygen.

Module keysign.
(** [keysign.Request]. *)
Record Request : Type := mkRequest {
  PoolPubKey : string;
  Messages : list string;
  SignerPubKeys : list string;
  BlockHeight : Z;
  Version : string
}.
End keysign.

(** The dynamic type of the [interface{}] argument of [requestToMsgId]:
    the two cases of its type switch and everything else. *)
Inductive AnyRequest : Type :=
| IsKeygen (value : keygen.Request)
| IsKeysign (value : keysign.Request)
| IsOther.

(** ** The collaborators of the facade

    Everything [tss.go] imports and calls: the opaque types of the
    libraries and one function per call site. A call that touches the
    network, the disk or the clock is a function of its arguments here
    (the environment's answer to that call) and is recorded in the
    history when the facade makes it. *)
Class Externals : Type := {
  (* opaque values of the libraries *)
  PrivKey : Type;            (* tcrypto.PrivKey *)
  Multiaddr : Type;          (* maddr.Multiaddr *)
  PeerID : Type;             (* peer.ID *)
  LocalPreParams : Type;     (* bkeygen.LocalPreParams *)
  Communication : Type;      (* *p2p.Communication *)
  Host : Type;               (* host.Host *)
  PartyCoordinator : Type;   (* *p2p.PartyCoordinator *)
  SignatureNotifier : Type;  (* *keysign.SignatureNotifier *)
  Metric : Type;             (* *monitor.Metric *)
  SigChan : Type;            (* chan string *)
  (* package common *)
  MsgToHashString : list byte -> string * option error;
  (* package messages *)
  NEWJOINPARTYVERSION : string;
  (* package conversion *)
  VersionLTCheck : string -> string -> result bool;
  GetPeerIDsFromPubKeys : list string -> result (list PeerID);
  GetPriKeyRawBytes : PrivKey -> result (list byte);
  PeerID_String : PeerID -> string;
  (* tendermint and the Cosmos SDK; marshalling under [sdk.AccPK] reads
     the account public-key prefix of the global configuration *)
  PubKey_Bytes : PrivKey -> list byte;
  MarshalPubKey_AccPK : sdk.Config -> list byte -> result string;
  (* package storage *)
  NewFileStateMgr : string -> result (storage.LocalStateManager Multiaddr);
  (* package p2p *)
  NewCommunication :
    string -> list Multiaddr -> Z -> string -> result Communication;
  Communication_Start : Communication -> list byte -> option error;
  Communication_Stop : Communication -> option error;
  Communication_GetHost : Communication -> Host;
  NewPartyCoordinator : Host -> Z -> PartyCoordinator;
  JoinPartyWithRetry :
    PartyCoordinator -> string -> list string -> list PeerID * option error;
  JoinPartyWithLeader :
    PartyCoordinator -> string -> Z -> list string -> Z -> SigChan ->
    list PeerID * string * option error;
  (* package keysign and package monitor *)
  NewSignatureNotifier : Host -> SignatureNotifier;
  NewMetric : Metric;
  Metric_Enable : Metric -> Metric;
  (* tss-lib; [GeneratePreParams] returns a non-nil pointer whenever its
     error is nil *)
  LocalPreParams_Validate : LocalPreParams -> bool;
  GeneratePreParams : Z -> result LocalPreParams
}.

(** What the facade does to the outside, in the order it does it. *)
Inductive Event `{Externals} : Type :=
| Log (level : Level) (msg : string)
| CallNewFileStateMgr (baseFolder : string)
| CallRetrieveP2PAddresses
| CallNewCommunication (rendezvous : string) (bootstrapPeers : list Multiaddr)
    (p2pPort : Z) (externalIP : string)
| CallGeneratePreParams (timeout : Z)
| CallCommunicationStart (comm : Communication) (priKeyRawBytes : list byte)
| CallCommunicationStop (comm : Communication)
| CallNewPartyCoordinator (host : Host) (timeout : Z)
| CallPartyCoordinatorStop (pc : PartyCoordinator)
| CallNewSignatureNotifier (host : Host)
| CallJoinPartyWithRetry (msgID : string) (peersIDStr : list string)
| CallJoinPartyWithLeader (msgID : string) (blockHeight : Z)
    (peersIDStr : list string) (threshold : Z) (sigChan : SigChan).

(** The process: the global SDK configuration and the history. *)
Record World `{Externals} : Type := mkWorld {
  sdkConfig : sdk.Config;
  history : list Event
}.
Arguments mkWorld {_} sdkConfig history.

(** A call either returns or panics. *)
Inductive Outcome (A : Type) : Type :=
| Returns (a : A)
| Panics (reason : string).
Arguments Returns {A} a.
Arguments Panics {A} reason.

Definition Go `{Externals} (A : Type) : Type := World -> Outcome A * World.

Definition ret `{Externals} {A : Type} (a : A) : Go A :=
  fun w => (Returns a, w).

Definition bind `{Externals} {A B : Type} (c : Go A) (k : A -> Go B) : Go B :=
  fun w =>
    match c w with
    | (Returns a, w') => k a w'
    | (Panics reason, w') => (Panics reason, w')
    end.

Declare Scope go_scope.
Delimit Scope go_scope with go.
Notation "x <- c ;; k" := (bind c (fun x => k))
  (at level 61, c at next level, right associativity) : go_scope.
Notation "c ;; k" := (bind c (fun _ => k))
  (at level 61, right associativity) : go_scope.

Definition panic `{Externals} {A : Type} (reason : string) : Go A :=
  fun w => (Panics reason, w).

Definition emit `{Externals} (e : Event) : Go unit :=
  fun w => (Returns tt,
            {| sdkConfig := sdkConfig w; history := history w ++ [e] |}).

(** Reading the configuration behind [sdk.GetConfig()]. *)
Definition GetConfig `{Externals} : Go sdk.Config :=
  fun w => (Returns (sdkConfig w), w).

(** A setter called on the pointer that [sdk.GetConfig()] returns: it
    writes the one configuration of the process. *)
Definition modifyConfig `{Externals} (f : sdk.Config -> sdk.Config) : Go unit :=
  fun w => (Returns tt,
            {| sdkConfig := f (sdkConfig w); history := history w |}).

(** Running a computation from a configuration and an empty history. *)
Definition run `{Externals} {A : Type} (c : Go A) (config : sdk.Config)
    : Outcome A * World :=
  c {| sdkConfig := config; history := [] |}.

Local Open Scope go_scope.

(** ** Package [conversion]: the bech32 prefix setup *)

Module conversion.

(** The three setter calls of [SetupBech32Prefix], on the
    configuration alone. *)
Definition bech32Prefixes (config : sdk.Config) : sdk.Config :=
  let config := sdk.SetBech32PrefixForAccount "ordinox" "thorpub" config in
  let config := sdk.SetBech32PrefixForValidator "ordinox" "thorvpub" config in
  sdk.SetBech32PrefixForConsensusNode "or" "thorcpub" config.

(** [SetupBech32Prefix]: [config := sdk.GetConfig()] and the three
    setters on it. *)
Definition SetupBech32Prefix `{Externals} : Go unit :=
  modifyConfig (sdk.SetBech32PrefixForAccount "ordinox" "thorpub") ;;
  modifyConfig (sdk.SetBech32PrefixForValidator "ordinox" "thorvpub") ;;
  modifyConfig (sdk.SetBech32PrefixForConsensusNode "or" "thorcpub").

End conversion.

(** ** The server *)

(** [TssServer]. *)
Record TssServer `{Externals} : Type := mkTssServer {
  conf : common.TssConfig;
  logger : Logger;
  p2pCommunication : Communication;
  localNodePubKey : string;
  preParams : option LocalPreParams;
  tssKeyGenLocker : Mutex;
  stopChan : Chan;
  joinPartyChan : Chan;
  partyCoordinator : PartyCoordinator;
  stateManager : storage.LocalStateManager Multiaddr;
  signatureNotifier : SignatureNotifier;
  privateKey : PrivKey;
  tssMetrics : Metric
}.

Section Facade.

Context `{X : Externals}.

(** [close(t.stopChan)] on the server that holds the channel. *)
Definition close_stopChan (t : TssServer) : TssServer :=
  {| conf := conf t;
     logger := logger t;
     p2pCommunication := p2pCommunication t;
     localNodePubKey := localNodePubKey t;
     preParams := preParams t;
     tssKeyGenLocker := tssKeyGenLocker t;
     stopChan := ChanClosed;
     joinPartyChan := joinPartyChan t;
     partyCoordinator := partyCoordinator t;
     stateManager := stateManager t;
     signatureNotifier := signatureNotifier t;
     privateKey := privateKey t;
     tssMetrics := tssMetrics t |}.

(** [NewTss]. The block that regenerates the pre-parameters is followed
    by code that runs on the pre-parameters then in use, supplied or
    fresh: that code is [rest], the block is the final [match]. *)
Definition NewTss (cmdBootstrapPeers : list Multiaddr) (p2pPort : Z)
    (priKey : PrivKey) (rendezvous baseFolder : string)
    (conf : common.TssConfig) (preParams : option LocalPreParams)
    (externalIP : string) : Go (result TssServer) :=
  let pk := PubKey_Bytes priKey in
  config <- GetConfig ;;
  match MarshalPubKey_AccPK config pk with
  | Failed err => ret (Failed (wrap "fail to genearte the key" err))
  | Ok pubKey =>
  let logger : Logger := [("module", "tss")] in
  emit (Log InfoLevel ("tss bech32 pubkey created, we are: " ++ pubKey)) ;;
  emit (CallNewFileStateMgr baseFolder) ;;
  match NewFileStateMgr baseFolder with
  | Failed _ => ret (Failed "fail to create file state manager")
  | Ok stateManager =>
  emit CallRetrieveP2PAddresses ;;
  let bootstrapPeers :=
    match storage.RetrieveP2PAddresses stateManager with
    | Failed _ => cmdBootstrapPeers
    | Ok savedPeers => savedPeers ++ cmdBootstrapPeers
    end in
  emit (CallNewCommunication rendezvous bootstrapPeers p2pPort externalIP) ;;
  match NewCommunication rendezvous bootstrapPeers p2pPort externalIP with
  | Failed err => ret (Failed (wrap "fail to create communication layer" err))
  | Ok comm =>
  (* from [if !preParams.Validate()] to the end *)
  let rest (preParams : LocalPreParams) : Go (result TssServer) :=
  if negb (LocalPreParams_Validate preParams)
  then ret (Failed "invalid preparams")
  else
  match GetPriKeyRawBytes priKey with
  | Failed _ => ret (Failed "fail to get private key")
  | Ok priKeyRawBytes =>
  emit (CallCommunicationStart comm priKeyRawBytes) ;;
  match Communication_Start comm priKeyRawBytes with
  | Some err => ret (Failed (wrap "fail to start p2p network" err))
  | None =>
  emit (CallNewPartyCoordinator (Communication_GetHost comm)
          (common.PartyTimeout conf)) ;;
  let pc := NewPartyCoordinator (Communication_GetHost comm)
              (common.PartyTimeout conf) in
  emit (CallNewSignatureNotifier (Communication_GetHost comm)) ;;
  let sn := NewSignatureNotifier (Communication_GetHost comm) in
  let metrics := NewMetric in
  let metrics :=
    if common.EnableMonitor conf then Metric_Enable metrics else metrics in
  ret (Ok {| conf := conf;
             logger := logger;
             p2pCommunication := comm;
             localNodePubKey := pubKey;
             preParams := Some preParams;
             tssKeyGenLocker := Unlocked;
             stopChan := ChanOpen;
             joinPartyChan := ChanNil;
             partyCoordinator := pc;
             stateManager := stateManager;
             signatureNotifier := sn;
             privateKey := priKey;
             tssMetrics := metrics |})
  end end in
  (* the body of [if preParams == nil || !preParams.Validate()] *)
  let regenerate : Go (result TssServer) :=
    emit (CallGeneratePreParams (common.PreParamTimeout conf)) ;;
    match GeneratePreParams (common.PreParamTimeout conf) with
    | Failed err => ret (Failed (wrap "fail to generate pre parameters" err))
    | Ok fresh => rest fresh
    end in
  match preParams with
  | None => regenerate
  | Some supplied =>
      if negb (LocalPreParams_Validate supplied) then regenerate
      else rest supplied
  end
  end end end.

End Facade.

Section Operations.

Context `{X : Externals}.

(** [(t *TssServer) Start]. *)
Definition Start (t : TssServer) : Go (TssServer * option error) :=
  emit (Log InfoLevel "starting the tss servers") ;;
  ret (t, None).

(** [(t *TssServer) Stop]. Closing a closed or a nil channel panics. *)
Definition Stop (t : TssServer) : Go TssServer :=
  t <- match stopChan t with
       | ChanOpen => ret (close_stopChan t)
       | ChanClosed => panic "close of closed channel"
       | ChanNil => panic "close of nil channel"
       end ;;
  emit (CallCommunicationStop (p2pCommunication t)) ;;
  match Communication_Stop (p2pCommunication t) with
  | Some _ => emit (Log ErrorLevel "error in shutdown the p2p server")
  | None => ret tt
  end ;;
  emit (CallPartyCoordinatorStop (partyCoordinator t)) ;;
  emit (Log InfoLevel "The tss and p2p server has been stopped successfully") ;;
  ret t.

(** [(t *TssServer) requestToMsgId]. The two [sort.Strings] calls sort
    the slices of the request in place; the value returned is all that
    is modelled. *)
Definition requestToMsgId (t : TssServer) (request : AnyRequest)
    : Go (string * option error) :=
  let continue (dat : list byte) (keys : list string) :=
    let keys := GoString.sort_Strings keys in
    let keyAccumulation := GoString.accumulate "" keys in
    let dat := dat ++ GoString.bytes keyAccumulation in
    ret (MsgToHashString dat) in
  match request with
  | IsKeygen value => continue [] (keygen.Keys value)
  | IsKeysign value =>
      let Messages := GoString.sort_Strings (keysign.Messages value) in
      continue (GoString.bytes (GoString.Join Messages ","))
               (keysign.SignerPubKeys value)
  | IsOther =>
      emit (Log ErrorLevel "unknown request type") ;;
      ret ("", Some "unknown request type")
  end.

(** [for _, el := range peerIDs { peersIDStr = append(peersIDStr, el.String()) }]. *)
Definition peersIDStr (peerIDs : list PeerID) : list string :=
  map PeerID_String peerIDs.

(** [(t *TssServer) joinParty]: the online peers, the leader and the
    error. *)
Definition joinParty (t : TssServer) (msgID version : string)
    (blockHeight : Z) (participants : list string) (threshold : Z)
    (sigChan : SigChan) : Go (list PeerID * string * option error) :=
  match VersionLTCheck version NEWJOINPARTYVERSION with
  | Failed err =>
      ret ([], "", Some ("fail to parse the version with error:" ++ err)%string)
  | Ok oldJoinParty =>
      if oldJoinParty then
        emit (Log InfoLevel "we apply the leadless join party") ;;
        match GetPeerIDsFromPubKeys participants with
        | Failed err =>
            ret ([], "NONE",
                 Some (wrap "fail to convert pub key to peer id" err))
        | Ok peerIDs =>
            emit (CallJoinPartyWithRetry msgID (peersIDStr peerIDs)) ;;
            let '(onlines, err) :=
              JoinPartyWithRetry (partyCoordinator t) msgID
                (peersIDStr peerIDs) in
            ret (onlines, "NONE", err)
        end
      else
        emit (Log InfoLevel "we apply the join party with a leader") ;;
        if (length participants =? 0)%nat then
          emit (Log ErrorLevel
                  "we fail to have any participants or passed by request") ;;
          ret ([], "", Some "no participants can be found")
        else
          match GetPeerIDsFromPubKeys participants with
          | Failed _ =>
              ret ([], "", Some "fail to convert the public key to peer ID")
          | Ok peersID =>
              emit (CallJoinPartyWithLeader msgID blockHeight
                      (peersIDStr peersID) threshold sigChan) ;;
              ret (JoinPartyWithLeader (partyCoordinator t) msgID
                     blockHeight (peersIDStr peersID) threshold sigChan)
          end
  end.

(** Recognisers of the two party-coordinator calls in a history. *)
Definition isJoinPartyWithRetry (e : Event) : bool :=
  match e with CallJoinPartyWithRetry _ _ => true | _ => false end.

Definition isJoinPartyWithLeader (e : Event) : bool :=
  match e with CallJoinPartyWithLeader _ _ _ _ _ => true | _ => false end.

Definition isGeneratePreParams (e : Event) : bool :=
  match e with CallGeneratePreParams _ => true | _ => false end.

(** The calls of a history, without its log lines. *)
Definition isCall (e : Event) : bool :=
  match e with Log _ _ => false | _ => true end.

Definition isNewCommunication (e : Event) : bool :=
  match e with CallNewCommunication _ _ _ _ => true | _ => false end.

Definition isCommunicationStart (e : Event) : bool :=
  match e with CallCommunicationStart _ _ => true | _ => false end.

(** Some event of the history of [w] satisfies [p]. *)
Definition invoked (p : Event -> bool) (w : World) : bool :=
  existsb p (history w).

(** [GetLocalPubKey]. *)
Definition GetLocalPubKey (t : TssServer) : string := localNodePubKey t.

End Operations.

(** ** A test double for the collaborators

    In the manner of the repository's [MockLocalStateManager] and
    [MockTssServer]: a closed instance of [Externals] on which the
    facade can be run. *)

Module Mock.

Definition hexDigit (n : N) : ascii :=
  ascii_of_N (if (n <? 10)%N then 48 + n else 87 + n).

(** [hex.EncodeToString]. *)
Fixpoint hexEncode (bs : list byte) : string :=
  match bs with
  | [] => EmptyString
  | b :: bs' =>
      let n := Byte.to_N b in
      String (hexDigit (n / 16)) (String (hexDigit (n mod 16)) (hexEncode bs'))
  end.

(** Splits a string at every occurrence of [sep]. *)
Fixpoint split (sep : ascii) (s : string) : list string :=
  match s with
  | EmptyString => [EmptyString]
  | String c s' =>
      if Ascii.eqb c sep then EmptyString :: split sep s'
      else match split sep s' with
           | [] => [String c EmptyString]
           | part :: parts => String c part :: parts
           end
  end.

(** A non-empty run of decimal digits, as a number. *)
Fixpoint digits (acc : N) (s : string) : option N :=
  match s with
  | EmptyString => Some acc
  | String c s' =>
      let n := N_of_ascii c in
      if ((48 <=? n) && (n <=? 57))%N
      then digits (10 * acc + (n - 48))%N s'
      else None
  end.

Definition number (s : string) : option N :=
  match s with
  | EmptyString => None
  | _ => digits 0 s
  end.

(** [major.minor.patch]. *)
Definition parseVersion (s : string) : option (N * N * N) :=
  match split "."%char s with
  | [a; b; c] =>
      match number a, number b, number c with
      | Some major, Some minor, Some patch => Some (major, minor, patch)
      | _, _, _ => None
      end
  | _ => None
  end.

Definition versionLT (v c : N * N * N) : bool :=
  let '(a1, b1, c1) := v in
  let '(a2, b2, c2) := c in
  ((a1 <? a2) || ((a1 =? a2) && ((b1 <? b2) || ((b1 =? b2) && (c1 <? c2)))))%N.

(** Modelled from the spec: [conversion.VersionLTCheck], which is not
    among the sources at hand. The spec describes it as a pure
    predicate [is_older_than (peer_version, NEW_JOIN_PARTY_VERSION)]
    computed from semantic-version parts; a version that does not parse
    is an error. *)
Definition versionLTCheck (currentVer expectedVer : string) : result bool :=
  match parseVersion expectedVer with
  | None => Failed "fail to parse the expected version"
  | Some c =>
      match parseVersion currentVer with
      | None => Failed "fail to parse the current version"
      | Some v => Ok (versionLT v c)
      end
  end.

(** A public key converts when it is not the empty string; the peer
    id is then the key itself. *)
Definition peerIDsFromPubKeys (pubkeys : list string)
    : result (list string) :=
  if existsb (fun k => String.eqb k "") pubkeys
  then Failed "empty public key"
  else Ok pubkeys.

(** The state manager of a folder that holds no address book yet. *)
Definition noAddressBook : storage.LocalStateManager string :=
  storage.mkLocalStateManager
    (Failed "open /tmp/fresh/address_book.seed: no such file or directory").

(** The state manager of a folder with one saved peer. *)
Definition savedAddressBook : storage.LocalStateManager string :=
  storage.mkLocalStateManager (Ok ["/ip4/10.0.0.9/tcp/6668"]).

#[global] Instance externals : Externals := {|
  PrivKey := list byte;
  Multiaddr := string;
  PeerID := string;
  LocalPreParams := bool;
  Communication := list string;
  Host := unit;
  PartyCoordinator := unit;
  SignatureNotifier := unit;
  Metric := bool;
  SigChan := unit;
  MsgToHashString := fun msg => (hexEncode msg, None);
  NEWJOINPARTYVERSION := "0.14.0";
  VersionLTCheck := versionLTCheck;
  GetPeerIDsFromPubKeys := peerIDsFromPubKeys;
  GetPriKeyRawBytes := fun priKey => Ok priKey;
  PeerID_String := fun id => id;
  PubKey_Bytes := fun priKey => priKey;
  MarshalPubKey_AccPK := fun config key =>
    match key with
    | [] => Failed "empty key"
    | _ => Ok (sdk.bech32AccountPub config ++ "1" ++ hexEncode key)%string
    end;
  NewFileStateMgr := fun baseFolder =>
    if String.eqb baseFolder "/dev/null/tss"
    then Failed "mkdir /dev/null/tss: not a directory"
    else if String.eqb baseFolder "/tmp/fresh" then Ok noAddressBook
    else if String.eqb baseFolder "/var/tss" then Ok savedAddressBook
    else Ok storage.MockLocalStateManager;
  NewCommunication := fun _ bootstrapPeers _ _ => Ok bootstrapPeers;
  Communication_Start := fun _ _ => None;
  Communication_Stop := fun _ => None;
  Communication_GetHost := fun _ => tt;
  NewPartyCoordinator := fun _ _ => tt;
  JoinPartyWithRetry := fun _ _ peers => (peers, None);
  JoinPartyWithLeader := fun _ _ _ peers _ _ => (peers, hd "" peers, None);
  NewSignatureNotifier := fun _ => tt;
  NewMetric := false;
  Metric_Enable := fun _ => true;
  LocalPreParams_Validate := fun p => p;
  GeneratePreParams := fun timeout =>
    if (0 <? timeout)%Z then Ok true else Failed "timeout"
|}.

Definition config : common.TssConfig :=
  {| common.PartyTimeout := 45000000000;
     common.KeyGenTimeout := 30000000000;
     common.KeySignTimeout := 30000000000;
     common.PreParamTimeout := 300000000000;
     common.EnableMonitor := false |}.

(** A constructed server of the test double. *)
Definition server : TssServer :=
  {| conf := config;
     logger := [("module", "tss")];
     p2pCommunication := [];
     localNodePubKey := "thorpub101";
     preParams := Some true;
     tssKeyGenLocker := Unlocked;
     stopChan := ChanOpen;
     joinPartyChan := ChanNil;
     partyCoordinator := tt;
     stateManager := storage.MockLocalStateManager;
     signatureNotifier := tt;
     privateKey := [Byte.x01];
     tssMetrics := false |}.

End Mock.

(** ** The remaining methods of the server *)

(** [PeerInfo]. *)
Record PeerInfo : Type := mkPeerInfo {
  ID : string;
  Address : string
}.

(** What [GetLocalPeerID] and [GetKnownPeers] read from libp2p: the
    open connections of a host, the remote end of a connection and the
    value of the [ip4] component of a multiaddr (with its error). *)
Class Network `{Externals} : Type := {
  Conn : Type;                                   (* network.Conn *)
  Host_Conns : Host -> list Conn;                (* host.Network().Conns() *)
  Conn_RemotePeer : Conn -> PeerID;
  Conn_RemoteMultiaddr : Conn -> Multiaddr;
  ValueForProtocol_IP4 : Multiaddr -> string * option error;
  Communication_GetLocalPeerID : Communication -> string
}.

(** What [notifyJoinPartyChan] does with the channel: nothing, or the
    send of one value (which blocks until it is received; that the send
    is made is all that is recorded). *)
Inductive Notification : Type := NothingSent | ValueSent.

Section Methods.

Context `{X : Externals}.

(** [(t *TssServer) setJoinPartyChan]. *)
Definition setJoinPartyChan (t : TssServer) (jpc : Chan) : TssServer :=
  {| conf := conf t;
     logger := logger t;
     p2pCommunication := p2pCommunication t;
     localNodePubKey := localNodePubKey t;
     preParams := preParams t;
     tssKeyGenLocker := tssKeyGenLocker t;
     stopChan := stopChan t;
     joinPartyChan := jpc;
     partyCoordinator := partyCoordinator t;
     stateManager := stateManager t;
     signatureNotifier := signatureNotifier t;
     privateKey := privateKey t;
     tssMetrics := tssMetrics t |}.

(** [(t *TssServer) unsetJoinPartyChan]. *)
Definition unsetJoinPartyChan (t : TssServer) : TssServer :=
  setJoinPartyChan t ChanNil.

(** [(t *TssServer) notifyJoinPartyChan]. A send on a closed channel
    panics. *)
Definition notifyJoinPartyChan (t : TssServer) : Outcome Notification :=
  match joinPartyChan t with
  | ChanNil => Returns NothingSent
  | ChanOpen => Returns ValueSent
  | ChanClosed => Panics "send on closed channel"
  end.

Context `{N : !Network}.

(** [(t *TssServer) GetLocalPeerID]. *)
Definition GetLocalPeerID (t : TssServer) : string :=
  Communication_GetLocalPeerID (p2pCommunication t).

(** [(t *TssServer) GetKnownPeers]: the loop appends one [PeerInfo] per
    connection; the error of [ValueForProtocol] is dropped. *)
Definition GetKnownPeers (t : TssServer) : list PeerInfo :=
  let infos : list PeerInfo := [] in
  let host := Communication_GetHost (p2pCommunication t) in
  fold_left
    (fun infos conn =>
       let peer := Conn_RemotePeer conn in
       let addrs := Conn_RemoteMultiaddr conn in
       let '(ip, _) := ValueForProtocol_IP4 addrs in
       let pi := {| ID := PeerID_String peer; Address := ip |} in
       infos ++ [pi])
    (Host_Conns host) infos.

(** Recognisers of the two constructions that end [NewTss]. *)
Definition isNewPartyCoordinator (e : Event) : bool :=
  match e with CallNewPartyCoordinator _ _ => true | _ => false end.

Definition isNewSignatureNotifier (e : Event) : bool :=
  match e with CallNewSignatureNotifier _ => true | _ => false end.

Definition isCoordinatorCall (e : Event) : bool :=
  isJoinPartyWithRetry e || isJoinPartyWithLeader e.

End Methods.

(** The kinds of the calls the constructor makes, in the order of the
    source. *)
Inductive CallKind : Type :=
| KNewFileStateMgr | KRetrieveP2PAddresses | KNewCommunication
| KGeneratePreParams | KCommunicationStart | KNewPartyCoordinator
| KNewSignatureNotifier | KOther.

Definition callKind `{Externals} (e : Event) : CallKind :=
  match e with
  | CallNewFileStateMgr _ => KNewFileStateMgr
  | CallRetrieveP2PAddresses => KRetrieveP2PAddresses
  | CallNewCommunication _ _ _ _ => KNewCommunication
  | CallGeneratePreParams _ => KGeneratePreParams
  | CallCommunicationStart _ _ => KCommunicationStart
  | CallNewPartyCoordinator _ _ => KNewPartyCoordinator
  | CallNewSignatureNotifier _ => KNewSignatureNotifier
  | _ => KOther
  end.

(** The full sequence of the constructor's calls, with or without the
    regeneration of the pre-parameters. *)
Definition constructorCalls (regenerates : bool) : list CallKind :=
  [KNewFileStateMgr; KRetrieveP2PAddresses; KNewCommunication]
  ++ (if regenerates then [KGeneratePreParams] else [])
  ++ [KCommunicationStart; KNewPartyCoordinator; KNewSignatureNotifier].

(** [preParams == nil || !preParams.Validate()]. *)
Definition needsFreshPreParams `{Externals}
    (preParams : option LocalPreParams) : bool :=
  match preParams with
  | None => true
  | Some p => negb (LocalPreParams_Validate p)
  end.

(** A test double of the network: a connection is its remote peer and
    its remote address; an address has an [ip4] value when it starts
    with [/ip4/]. *)
Module MockNetwork.

Definition ip4 (addr : string) : string * option error :=
  if String.prefix "/ip4/" addr
  then (String.substring 5 (String.length addr - 5) addr, None)
  else ("", Some "protocol requested is not in multiaddr").

#[global] Instance network : Network := {|
  Conn := string * string;
  Host_Conns := fun _ =>
    [("peerA", "/ip4/10.0.0.1"); ("peerB", "/dns4/example.org"); ("peerA", "/ip4/10.0.0.1")];
  Conn_RemotePeer := fst;
  Conn_RemoteMultiaddr := snd;
  ValueForProtocol_IP4 := ip4;
  Communication_GetLocalPeerID := fun _ => "local"
|}.

End MockNetwork.

(** The test double again, with a p2p communication whose [Stop]
    fails. *)
Definition failingStop : Externals := {|
  PrivKey := @PrivKey Mock.externals;
  Multiaddr := @Multiaddr Mock.externals;
  PeerID := @PeerID Mock.externals;
  LocalPreParams := @LocalPreParams Mock.externals;
  Communication := @Communication Mock.externals;
  Host := @Host Mock.externals;
  PartyCoordinator := @PartyCoordinator Mock.externals;
  SignatureNotifier := @SignatureNotifier Mock.externals;
  Metric := @Metric Mock.externals;
  SigChan := @SigChan Mock.externals;
  MsgToHashString := @MsgToHashString Mock.externals;
  NEWJOINPARTYVERSION := @NEWJOINPARTYVERSION Mock.externals;
  VersionLTCheck := @VersionLTCheck Mock.externals;
  GetPeerIDsFromPubKeys := @GetPeerIDsFromPubKeys Mock.externals;
  GetPriKeyRawBytes := @GetPriKeyRawBytes Mock.externals;
  PeerID_String := @PeerID_String Mock.externals;
  PubKey_Bytes := @PubKey_Bytes Mock.externals;
  MarshalPubKey_AccPK := @MarshalPubKey_AccPK Mock.externals;
  NewFileStateMgr := @NewFileStateMgr Mock.externals;
  NewCommunication := @NewCommunication Mock.externals;
  Communication_Start := @Communication_Start Mock.externals;
  Communication_Stop := fun _ => Some "context deadline exceeded";
  Communication_GetHost := @Communication_GetHost Mock.externals;
  NewPartyCoordinator := @NewPartyCoordinator Mock.externals;
  JoinPartyWithRetry := @JoinPartyWithRetry Mock.externals;
  JoinPartyWithLeader := @JoinPartyWithLeader Mock.externals;
  NewSignatureNotifier := @NewSignatureNotifier Mock.externals;
  NewMetric := @NewMetric Mock.externals;
  Metric_Enable := @Metric_Enable Mock.externals;
  LocalPreParams_Validate := @LocalPreParams_Validate Mock.externals;
  GeneratePreParams := @GeneratePreParams Mock.externals
|}.

(** A server over [failingStop]. *)
Definition failingStopServer : @TssServer failingStop :=
  @mkTssServer failingStop Mock.config [("module", "tss")] []
    "thorpub101" (Some true) Unlocked ChanOpen ChanNil tt
    storage.MockLocalStateManager tt [Byte.x01] false.

(** ** The key-generation benchmark tool ([tss-benchgen])

    Package [main] of the tool: the checks of [main] before it runs the
    key generation, the path and the writing of a fixture file, and the
    routing of one outgoing message in the loop of [runKeyGen]. *)

Module benchgen.

(** A Go [int]: 64 bits, two's complement. *)
Definition wrapInt (z : Z) : Z :=
  ((z + 2 ^ 63) mod 2 ^ 64 - 2 ^ 63)%Z.

Definition isInt (z : Z) : Prop := (- 2 ^ 63 <= z < 2 ^ 63)%Z.

(** [%d] of [fmt.Sprintf]. *)
Definition formatInt (z : Z) : string :=
  DecimalString.NilZero.string_of_int (Z.to_int z).

(** [makeKeyGenDataFilePath]. *)
Definition makeKeyGenDataFilePath (dir : string) (partyIndex : Z) : string :=
  (dir ++ "/keygen_data_" ++ formatInt partyIndex ++ ".json")%string.

(** How [main] ends: [os.Exit] with a code, a panic, or the call of
    [runKeyGen] (after which it exits with 0). *)
Inductive Ending : Type :=
| Exit (code : Z)
| MkdirPanic
| RunKeyGen (dir : string) (t n : Z).

(** [main], on the parsed flags [-q] and [-n], the remaining arguments
    and the answers of the file system: whether [os.Stat] of a path
    fails with a not-exist error and whether [os.Mkdir] of it fails.
    [usage] exits with code 2. *)
Definition main (quorum parties : Z) (args : list string)
    (statNotExist mkdirFails : string -> bool) : Ending :=
  if ((parties <=? 0) || (quorum <=? 1) || (parties <? quorum))%Z
  then Exit 1
  else
    match args with
    | [] => Exit 2
    | dir :: _ =>
        if negb (statNotExist dir) then Exit 1
        else if mkdirFails dir then MkdirPanic
        else RunKeyGen dir (wrapInt (quorum - 1)) parties
    end.

(** A file system, as far as the fixture files go: what a path names. *)
Inductive Node : Type :=
| File (content : list byte)
| Directory.

Definition FileSystem : Type := string -> option Node.

(** The file at [name] holds [content] from now on. *)
Definition writeFile (fs : FileSystem) (name : string) (content : list byte)
    : FileSystem :=
  fun path => if String.eqb path name then Some (File content) else fs path.

Section Fixtures.

(** [keygen.LocalPartySaveData] and its [json.Marshal]; whether
    [os.OpenFile] with [O_WRONLY|O_CREATE|O_TRUNC] fails on a path that
    is not a directory (on a directory it always does); whether the
    write fails. *)
Variable LocalPartySaveData : Type.
Variable Marshal : LocalPartySaveData -> result (list byte).
Variable openFails : FileSystem -> string -> bool.
Variable writeFails : FileSystem -> string -> bool.

(** [tryWriteKeyGenDataFile]. [os.Stat] succeeds on every path that
    names something. *)
Definition tryWriteKeyGenDataFile (dir : string) (index : Z)
    (data : LocalPartySaveData) (fs : FileSystem)
    : Outcome unit * FileSystem :=
  let fixtureFileName := makeKeyGenDataFilePath dir index in
  match fs fixtureFileName with
  | Some (File _) => (Returns tt, fs)
  | Some Directory =>
      (Panics ("unable to open fixture file " ++ fixtureFileName
               ++ " for writing"), fs)
  | None =>
      if openFails fs fixtureFileName
      then (Panics ("unable to open fixture file " ++ fixtureFileName
                    ++ " for writing"), fs)
      else
        let fs := writeFile fs fixtureFileName [] in
        match Marshal data with
        | Failed _ =>
            (Panics ("unable to marshal save data for fixture file "
                     ++ fixtureFileName), fs)
        | Ok bz =>
            if writeFails fs fixtureFileName
            then (Panics ("unable to write to fixture file "
                          ++ fixtureFileName), fs)
            else (Returns tt, writeFile fs fixtureFileName bz)
        end
  end.

End Fixtures.

(** The parties of [runKeyGen], each by the [Index] of its party id. *)
Definition Parties : Type := list Z.

(** [parties[i]]: a Go index expression panics out of range. *)
Definition index (parties : Parties) (i : Z) : option Z :=
  if (i <? 0)%Z then None else nth_error parties (Z.to_nat i).

(** The [case msg := <-outCh] of the loop of [runKeyGen]: the parties
    for which an updater is started, for a message from the party of
    index [from] to [dest] ([None] for the nil slice of a broadcast). *)
Definition route (parties : Parties) (from : Z) (dest : option (list Z))
    : Outcome (list Z) :=
  match dest with
  | None => Returns (filter (fun P => negb (P =? from)%Z) parties)
  | Some [] => Panics "index out of range"
  | Some (dest0 :: _) =>
      if (dest0 =? from)%Z
      then Panics "party tried to send a message to itself"
      else match index parties dest0 with
           | Some P => Returns [P]
           | None => Panics "index out of range"
           end
  end.

(** The parties that [runKeyGen] creates: party [i] has index [i]. *)
Definition testParties (n : nat) : Parties := map Z.of_nat (seq 0 n).

End benchgen.

(** * Properties *)

(** ** The order on strings and [sort.Strings] *)

Module GoStringFacts.
Import GoString.

Lemma compare_refl (s : string) : String.compare s s = Eq.
Proof.
  induction s as [|c s IH]; simpl; [reflexivity|].
  unfold Ascii.compare. now rewrite N.compare_refl.
Qed.

Lemma compare_not_Gt_trans (s1 : string) :
  forall s2 s3,
    String.compare s1 s2 <> Gt -> String.compare s2 s3 <> Gt ->
    String.compare s1 s3 <> Gt.
Proof.
  induction s1 as [|c1 s1 IH]; intros [|c2 s2] [|c3 s3]; simpl;
    try congruence.
  unfold Ascii.compare.
  destruct (N.compare_spec (N_of_ascii c1) (N_of_ascii c2)) as [E12|L12|G12];
    destruct (N.compare_spec (N_of_ascii c2) (N_of_ascii c3)) as [E23|L23|G23];
    destruct (N.compare_spec (N_of_ascii c1) (N_of_ascii c3)) as [E13|L13|G13];
    intros H12 H23; try congruence; try lia.
  now apply (IH s2 s3).
Qed.

Lemma le_refl (s : string) : le s s.
Proof. unfold le, String.leb. now rewrite compare_refl. Qed.

Lemma le_trans (s1 s2 s3 : string) : le s1 s2 -> le s2 s3 -> le s1 s3.
Proof.
  unfold le, String.leb. intros H12 H23.
  assert (N13 : String.compare s1 s3 <> Gt).
  { apply (compare_not_Gt_trans s1 s2 s3).
    - destruct (String.compare s1 s2); congruence.
    - destruct (String.compare s2 s3); congruence. }
  destruct (String.compare s1 s3); congruence.
Qed.

Lemma le_antisym (s1 s2 : string) : le s1 s2 -> le s2 s1 -> s1 = s2.
Proof. apply String.leb_antisym. Qed.

Lemma less_le (x y : string) : less x y = true -> le x y.
Proof.
  unfold less, le, String.ltb, String.leb.
  destruct (String.compare x y); congruence.
Qed.

Lemma not_less_le (x y : string) : less x y = false -> le y x.
Proof.
  unfold less, le, String.ltb, String.leb.
  rewrite (String.compare_antisym y x).
  destruct (String.compare x y); simpl; congruence.
Qed.

Lemma insert_Permutation (x : string) (l : list string) :
  Permutation (insert x l) (x :: l).
Proof.
  induction l as [|y l IH]; simpl; [reflexivity|].
  destruct (less x y); [reflexivity|].
  rewrite IH. apply perm_swap.
Qed.

Lemma insert_HdRel (a x : string) (l : list string) :
  le a x -> HdRel le a l -> HdRel le a (insert x l).
Proof.
  intros Hax Hal. destruct l as [|y l]; simpl.
  - now constructor.
  - destruct (less x y); constructor; auto.
    now apply HdRel_inv in Hal.
Qed.

Lemma insert_Sorted (x : string) (l : list string) :
  Sorted le l -> Sorted le (insert x l).
Proof.
  induction l as [|y l IH]; intros Hs; simpl.
  - repeat constructor.
  - destruct (less x y) eqn:Hxy.
    + constructor; [assumption|]. constructor. now apply less_le.
    + apply Sorted_inv in Hs. destruct Hs as [Hs Hhd].
      constructor; [now apply IH|].
      apply insert_HdRel; [now apply not_less_le | assumption].
Qed.

Lemma sort_Strings_Sorted (l : list string) : Sorted le (sort_Strings l).
Proof.
  induction l as [|x l IH]; simpl; [constructor|].
  now apply insert_Sorted.
Qed.

Lemma sort_Strings_Permutation (l : list string) :
  Permutation (sort_Strings l) l.
Proof.
  induction l as [|x l IH]; simpl; [reflexivity|].
  rewrite insert_Permutation. now constructor.
Qed.

Lemma Sorted_le_Strongly (l : list string) :
  Sorted le l -> StronglySorted le l.
Proof.
  apply Sorted_StronglySorted. intros a b c. apply le_trans.
Qed.

Lemma StronglySorted_head_le (a : string) (l : list string) (b : string) :
  StronglySorted le (a :: l) -> In b (a :: l) -> le a b.
Proof.
  intros Hs Hin. apply StronglySorted_inv in Hs. destruct Hs as [_ Hall].
  destruct Hin as [->|Hin]; [apply le_refl|].
  rewrite Forall_forall in Hall. now apply Hall.
Qed.

(** A list has one sorted arrangement. *)
Lemma StronglySorted_unique (l1 : list string) :
  forall l2, StronglySorted le l1 -> StronglySorted le l2 ->
             Permutation l1 l2 -> l1 = l2.
Proof.
  induction l1 as [|a l1 IH]; intros l2 H1 H2 HP.
  - apply Permutation_nil in HP. now subst.
  - destruct l2 as [|b l2].
    + apply Permutation_sym, Permutation_nil in HP. discriminate.
    + assert (Hab : a = b).
      { apply le_antisym.
        - apply (StronglySorted_head_le a l1 b H1).
          apply (Permutation_in b (Permutation_sym HP)). now left.
        - apply (StronglySorted_head_le b l2 a H2).
          apply (Permutation_in a HP). now left. }
      subst b. f_equal.
      apply IH.
      * now apply StronglySorted_inv in H1.
      * now apply StronglySorted_inv in H2.
      * now apply Permutation_cons_inv in HP.
Qed.

(** Whatever sorts the slice returns what [sort_Strings] returns. *)
Lemma sort_Strings_unique (l sorted : list string) :
  Permutation sorted l -> Sorted le sorted -> sort_Strings l = sorted.
Proof.
  intros HP Hs. apply StronglySorted_unique.
  - apply Sorted_le_Strongly, sort_Strings_Sorted.
  - now apply Sorted_le_Strongly.
  - rewrite sort_Strings_Permutation. now symmetry.
Qed.

Lemma sort_Strings_permuted (l1 l2 : list string) :
  Permutation l1 l2 -> sort_Strings l1 = sort_Strings l2.
Proof.
  intros HP. apply sort_Strings_unique.
  - rewrite sort_Strings_Permutation. now symmetry.
  - apply sort_Strings_Sorted.
Qed.

Lemma accumulate_append (keys : list string) :
  forall acc, accumulate acc keys = (acc ++ String.concat "" keys)%string.
Proof.
  induction keys as [|k keys IH]; intros acc; simpl.
  - unfold accumulate. simpl. clear. induction acc; simpl; congruence.
  - unfold accumulate in *. simpl. rewrite IH.
    destruct keys as [|k' keys]; simpl.
    + clear. induction acc; simpl; [|congruence].
      induction k; simpl; congruence.
    + clear. induction acc; simpl; congruence.
Qed.

Lemma accumulate_concat (keys : list string) :
  accumulate "" keys = String.concat "" keys.
Proof. now rewrite accumulate_append. Qed.

End GoStringFacts.

Example mock_versions :
  Mock.versionLTCheck "0.13.9" "0.14.0" = Ok true /\
  Mock.versionLTCheck "0.14.0" "0.14.0" = Ok false /\
  Mock.versionLTCheck "1.2.3" "0.14.0" = Ok false /\
  Mock.versionLTCheck "0.14" "0.14.0" = Failed "fail to parse the current version".
Proof. repeat split; reflexivity. Qed.

(** ** The message id of a request *)

Section MsgId.

Context `{X : Externals}.

Lemma requestToMsgId_keygen (t : TssServer) (value : keygen.Request)
    (w : World) :
  requestToMsgId t (IsKeygen value) w =
  (Returns (MsgToHashString
              (GoString.bytes
                 (String.concat "" (GoString.sort_Strings (keygen.Keys value))))),
   w).
Proof.
  unfold requestToMsgId, ret. simpl.
  now rewrite GoStringFacts.accumulate_concat.
Qed.

Lemma requestToMsgId_keysign (t : TssServer) (value : keysign.Request)
    (w : World) :
  requestToMsgId t (IsKeysign value) w =
  (Returns (MsgToHashString
              (GoString.bytes
                 (String.concat "," (GoString.sort_Strings (keysign.Messages value)))
               ++ GoString.bytes
                    (String.concat ""
                       (GoString.sort_Strings (keysign.SignerPubKeys value))))),
   w).
Proof.
  unfold requestToMsgId, ret, GoString.Join.
  now rewrite GoStringFacts.accumulate_concat.
Qed.

End MsgId.

(** C1. Two keysign requests whose [Messages] are permutations of each
    other and whose [SignerPubKeys] are permutations of each other get
    the same message id (and the same error), on whatever servers and in
    whatever process states they are handled; the other fields of the
    requests play no part. *)
Theorem requestToMsgId_permutation_invariant `{X : Externals}
    (t1 t2 : TssServer) (w1 w2 : World) (r1 r2 : keysign.Request) :
  Permutation (keysign.Messages r1) (keysign.Messages r2) ->
  Permutation (keysign.SignerPubKeys r1) (keysign.SignerPubKeys r2) ->
  fst (requestToMsgId t1 (IsKeysign r1) w1) =
  fst (requestToMsgId t2 (IsKeysign r2) w2).
Proof.
  intros HM HK. rewrite !requestToMsgId_keysign. simpl.
  rewrite (GoStringFacts.sort_Strings_permuted _ _ HM).
  now rewrite (GoStringFacts.sort_Strings_permuted _ _ HK).
Qed.

Lemma requestToMsgId_permutation_invariant_witness :
  let r1 := keysign.mkRequest "pool" ["m2"; "m1"] ["b"; "a"; "c"] 10 "0.14.0" in
  let r2 := keysign.mkRequest "pool" ["m1"; "m2"] ["c"; "b"; "a"] 11 "0.13.0" in
  fst (run (requestToMsgId Mock.server (IsKeysign r1)) sdk.defaultConfig) =
  fst (run (requestToMsgId Mock.server (IsKeysign r2)) sdk.defaultConfig).
Proof.
  intros r1 r2.
  apply (requestToMsgId_permutation_invariant Mock.server Mock.server _ _ r1 r2).
  - simpl. apply perm_swap.
  - simpl. apply Permutation_sym. apply (Permutation_cons_append ["b"; "a"] "c").
Defined.

(** C2. For a keygen request the message id is the hash of the
    concatenation of the participants' public keys in lexicographic
    order, with no message data in front; for a keysign request it is the
    hash of the messages in lexicographic order joined by commas,
    followed by the concatenation of the signers' public keys in
    lexicographic order. *)
Theorem requestToMsgId_hash_of_sorted `{X : Externals}
    (t : TssServer) (w : World)
    (kg : keygen.Request) (ks : keysign.Request)
    (keys msgs signers : list string) :
  Permutation keys (keygen.Keys kg) -> Sorted GoString.le keys ->
  Permutation msgs (keysign.Messages ks) -> Sorted GoString.le msgs ->
  Permutation signers (keysign.SignerPubKeys ks) -> Sorted GoString.le signers ->
  requestToMsgId t (IsKeygen kg) w =
    (Returns (MsgToHashString (GoString.bytes (String.concat "" keys))), w)
  /\
  requestToMsgId t (IsKeysign ks) w =
    (Returns (MsgToHashString
                (GoString.bytes (String.concat "," msgs)
                 ++ GoString.bytes (String.concat "" signers))), w).
Proof.
  intros Pk Sk Pm Sm Ps Ss.
  rewrite requestToMsgId_keygen, requestToMsgId_keysign.
  rewrite (GoStringFacts.sort_Strings_unique _ _ Pk Sk).
  rewrite (GoStringFacts.sort_Strings_unique _ _ Pm Sm).
  now rewrite (GoStringFacts.sort_Strings_unique _ _ Ps Ss).
Qed.

Lemma requestToMsgId_hash_of_sorted_witness :
  run (requestToMsgId Mock.server
         (IsKeygen (keygen.mkRequest ["b"; "a"] 1 "0.14.0")))
      sdk.defaultConfig
  = (Returns ("6162", None), mkWorld sdk.defaultConfig [])
  /\
  run (requestToMsgId Mock.server
         (IsKeysign (keysign.mkRequest "pool" ["m2"; "m1"] ["b"; "a"] 1 "0.14.0")))
      sdk.defaultConfig
  = (Returns ("6d312c6d326162", None), mkWorld sdk.defaultConfig []).
Proof.
  apply (requestToMsgId_hash_of_sorted Mock.server
           (mkWorld sdk.defaultConfig [])
           (keygen.mkRequest ["b"; "a"] 1 "0.14.0")
           (keysign.mkRequest "pool" ["m2"; "m1"] ["b"; "a"] 1 "0.14.0")
           ["a"; "b"] ["m1"; "m2"] ["a"; "b"]).
  - simpl. apply perm_swap.
  - repeat constructor.
  - simpl. apply perm_swap.
  - repeat constructor.
  - simpl. apply perm_swap.
  - repeat constructor.
Defined.

(** ** Joining a party *)

Section JoinParty.

Context `{X : Externals}.

Variables (t : TssServer) (msgID version : string) (blockHeight : Z)
          (participants : list string) (threshold : Z) (sigChan : SigChan)
          (config : sdk.Config).

Let call := run (joinParty t msgID version blockHeight participants
                   threshold sigChan) config.

Lemma joinParty_unparsed (err : error) :
  VersionLTCheck version NEWJOINPARTYVERSION = Failed err ->
  call = (Returns ([], "",
                   Some ("fail to parse the version with error:" ++ err)%string),
          mkWorld config []).
Proof. intros H. unfold call, run, joinParty. now rewrite H. Qed.

Lemma joinParty_leaderless_unconverted (err : error) :
  VersionLTCheck version NEWJOINPARTYVERSION = Ok true ->
  GetPeerIDsFromPubKeys participants = Failed err ->
  call = (Returns ([], "NONE",
                   Some (wrap "fail to convert pub key to peer id" err)),
          mkWorld config [Log InfoLevel "we apply the leadless join party"]).
Proof.
  intros Hv Hc. unfold call, run, joinParty. rewrite Hv.
  unfold bind, emit, ret. simpl. now rewrite Hc.
Qed.

Lemma joinParty_leaderless_converted (peerIDs : list PeerID) :
  VersionLTCheck version NEWJOINPARTYVERSION = Ok true ->
  GetPeerIDsFromPubKeys participants = Ok peerIDs ->
  call = (Returns
            (fst (JoinPartyWithRetry (partyCoordinator t) msgID
                    (peersIDStr peerIDs)),
             "NONE",
             snd (JoinPartyWithRetry (partyCoordinator t) msgID
                    (peersIDStr peerIDs))),
          mkWorld config
            [Log InfoLevel "we apply the leadless join party";
             CallJoinPartyWithRetry msgID (peersIDStr peerIDs)]).
Proof.
  intros Hv Hc. unfold call, run, joinParty. rewrite Hv.
  unfold bind, emit, ret. simpl. rewrite Hc. simpl.
  now destruct (JoinPartyWithRetry _ _ _).
Qed.

Lemma joinParty_leader_empty :
  VersionLTCheck version NEWJOINPARTYVERSION = Ok false ->
  participants = [] ->
  call = (Returns ([], "", Some "no participants can be found"),
          mkWorld config
            [Log InfoLevel "we apply the join party with a leader";
             Log ErrorLevel
               "we fail to have any participants or passed by request"]).
Proof.
  intros Hv Hp. unfold call, run, joinParty. rewrite Hv. subst participants.
  reflexivity.
Qed.


Lemma joinParty_leader_converted (peersID : list PeerID) :
  VersionLTCheck version NEWJOINPARTYVERSION = Ok false ->
  participants <> [] ->
  GetPeerIDsFromPubKeys participants = Ok peersID ->
  call = (Returns
            (JoinPartyWithLeader (partyCoordinator t) msgID blockHeight
               (peersIDStr peersID) threshold sigChan),
          mkWorld config
            [Log InfoLevel "we apply the join party with a leader";
             CallJoinPartyWithLeader msgID blockHeight (peersIDStr peersID)
               threshold sigChan]).
Proof.
  intros Hv Hp Hc. unfold call, run, joinParty. rewrite Hv.
  destruct participants as [|p ps]; [congruence|].
  unfold bind, emit, ret. simpl. now rewrite Hc.
Qed.

End JoinParty.




(** C8. On the leader-based path an empty participant list is rejected
    at once: the call returns the error alone (no peer and no leader is
    named, so there is nobody to blame) and the history holds the two log
    lines and no call to the party coordinator. The leaderless path makes
    no such test: with an empty list it converts the keys and calls
    [JoinPartyWithRetry]. *)
Theorem joinParty_leader_rejects_empty `{X : Externals}
    (t : TssServer) (msgID newer older : string) (blockHeight : Z)
    (threshold : Z) (sigChan : SigChan) (config : sdk.Config)
    (peerIDs : list PeerID) :
  VersionLTCheck newer NEWJOINPARTYVERSION = Ok false ->
  VersionLTCheck older NEWJOINPARTYVERSION = Ok true ->
  GetPeerIDsFromPubKeys [] = Ok peerIDs ->
  let leader := run (joinParty t msgID newer blockHeight [] threshold sigChan)
                  config in
  let leaderless := run (joinParty t msgID older blockHeight [] threshold sigChan)
                      config in
  fst leader = Returns ([], "", Some "no participants can be found") /\
  history (snd leader) =
    [Log InfoLevel "we apply the join party with a leader";
     Log ErrorLevel "we fail to have any participants or passed by request"] /\
  invoked isJoinPartyWithLeader (snd leader) = false /\
  invoked isJoinPartyWithRetry (snd leader) = false /\
  In (CallJoinPartyWithRetry msgID (peersIDStr peerIDs))
     (history (snd leaderless)).
Proof.
  intros Hn Ho Hc leader leaderless. subst leader leaderless.
  rewrite (joinParty_leader_empty _ _ _ _ _ _ _ _ Hn eq_refl).
  rewrite (joinParty_leaderless_converted _ _ _ _ _ _ _ _ peerIDs Ho Hc).
  unfold invoked. simpl. repeat split; auto.
Qed.

Lemma joinParty_leader_rejects_empty_witness :
  let leader := run (joinParty Mock.server "id" "0.14.0" 7 [] 1 tt)
                  sdk.defaultConfig in
  let leaderless := run (joinParty Mock.server "id" "0.13.0" 7 [] 1 tt)
                      sdk.defaultConfig in
  fst leader = Returns ([], "", Some "no participants can be found") /\
  history (snd leader) =
    [Log InfoLevel "we apply the join party with a leader";
     Log ErrorLevel "we fail to have any participants or passed by request"] /\
  invoked isJoinPartyWithLeader (snd leader) = false /\
  invoked isJoinPartyWithRetry (snd leader) = false /\
  In (CallJoinPartyWithRetry "id" (peersIDStr [])) (history (snd leaderless)).
Proof.
  apply (joinParty_leader_rejects_empty Mock.server "id" "0.14.0" "0.13.0" 7 1 tt
           sdk.defaultConfig []); reflexivity.
Defined.

(** C10. On the leaderless path the leader returned is ["NONE"]: with
    an error and no call when the public keys do not convert, and next to
    whatever [JoinPartyWithRetry] returns when they do. *)
Theorem joinParty_leaderless_leader_NONE `{X : Externals}
    (t : TssServer) (msgID version : string) (blockHeight : Z)
    (participants : list string) (threshold : Z) (sigChan : SigChan)
    (config : sdk.Config) :
  VersionLTCheck version NEWJOINPARTYVERSION = Ok true ->
  exists onlines err after,
    run (joinParty t msgID version blockHeight participants threshold sigChan)
      config = (Returns (onlines, "NONE", err), after) /\
    (forall e, GetPeerIDsFromPubKeys participants = Failed e ->
       onlines = [] /\
       err = Some (wrap "fail to convert pub key to peer id" e) /\
       invoked isJoinPartyWithRetry after = false) /\
    (forall peerIDs, GetPeerIDsFromPubKeys participants = Ok peerIDs ->
       (onlines, err) =
         JoinPartyWithRetry (partyCoordinator t) msgID (peersIDStr peerIDs) /\
       In (CallJoinPartyWithRetry msgID (peersIDStr peerIDs)) (history after)).
Proof.
  intros Hv.
  destruct (GetPeerIDsFromPubKeys participants) as [ids|e] eqn:Hc.
  - rewrite (joinParty_leaderless_converted _ _ _ _ _ _ _ _ ids Hv Hc).
    do 3 eexists. split; [reflexivity|]. split.
    + intros e He. discriminate.
    + intros ids' Hids. injection Hids as <-. simpl. split.
      * now destruct (JoinPartyWithRetry _ _ _).
      * right. now left.
  - rewrite (joinParty_leaderless_unconverted _ _ _ _ _ _ _ _ e Hv Hc).
    do 3 eexists. split; [reflexivity|]. split.
    + intros e' He. injection He as <-. repeat split.
    + intros ids Hids. discriminate.
Qed.

Lemma joinParty_leaderless_leader_NONE_witness :
  exists onlines err after,
    run (joinParty Mock.server "id" "0.13.0" 7 ["a"; ""] 1 tt) sdk.defaultConfig
      = (Returns (onlines, "NONE", err), after) /\
    (forall e, GetPeerIDsFromPubKeys ["a"; ""] = Failed e ->
       onlines = [] /\
       err = Some (wrap "fail to convert pub key to peer id" e) /\
       invoked isJoinPartyWithRetry after = false) /\
    (forall peerIDs, GetPeerIDsFromPubKeys ["a"; ""] = Ok peerIDs ->
       (onlines, err) =
         JoinPartyWithRetry (partyCoordinator Mock.server) "id"
           (peersIDStr peerIDs) /\
       In (CallJoinPartyWithRetry "id" (peersIDStr peerIDs)) (history after)).
Proof.
  apply (joinParty_leaderless_leader_NONE Mock.server "id" "0.13.0" 7 ["a"; ""] 1
           tt sdk.defaultConfig).
  reflexivity.
Defined.

(** ** The constructor *)

(** Unfolds a run of the constructor and splits on every answer of the
    collaborators, keeping the equations. *)
Ltac run_NewTss :=
  unfold run, NewTss, bind, emit, ret, GetConfig; simpl;
  repeat match goal with
         | |- context [match ?e with _ => _ end] =>
             let E := fresh "E" in destruct e eqn:E; simpl
         end.

Section Constructor.

Context `{X : Externals}.

Variables (cmdBootstrapPeers : list Multiaddr) (p2pPort : Z)
          (priKey : PrivKey) (rendezvous baseFolder : string)
          (tssConf : common.TssConfig) (supplied : option LocalPreParams)
          (externalIP : string) (config : sdk.Config).

Let construct := run (NewTss cmdBootstrapPeers p2pPort priKey rendezvous
                        baseFolder tssConf supplied externalIP) config.

Lemma NewTss_returns : exists r, fst construct = Returns r.
Proof. unfold construct. run_NewTss; eexists; reflexivity. Qed.

(** The constructor never writes the SDK configuration. *)
Lemma NewTss_sdkConfig : sdkConfig (snd construct) = config.
Proof. unfold construct. run_NewTss; reflexivity. Qed.

(** What the constructor returns when every step succeeds. *)
Lemma NewTss_constructs (pubKey : string)
    (sm : storage.LocalStateManager Multiaddr)
    (bootstrapPeers : list Multiaddr) (comm : Communication)
    (inUse : LocalPreParams) (priKeyRawBytes : list byte) :
  MarshalPubKey_AccPK config (PubKey_Bytes priKey) = Ok pubKey ->
  NewFileStateMgr baseFolder = Ok sm ->
  bootstrapPeers =
    match storage.RetrieveP2PAddresses sm with
    | Failed _ => cmdBootstrapPeers
    | Ok savedPeers => savedPeers ++ cmdBootstrapPeers
    end ->
  NewCommunication rendezvous bootstrapPeers p2pPort externalIP = Ok comm ->
  supplied = Some inUse ->
  LocalPreParams_Validate inUse = true ->
  GetPriKeyRawBytes priKey = Ok priKeyRawBytes ->
  Communication_Start comm priKeyRawBytes = None ->
  exists srv,
    fst construct = Returns (Ok srv) /\
    p2pCommunication srv = comm /\
    stateManager srv = sm /\
    preParams srv = Some inUse /\
    stopChan srv = ChanOpen.
Proof.
  intros Hk Hs Hb Hc Hp Hv Hr Hst. subst bootstrapPeers.
  unfold construct, run, NewTss, bind, emit, ret, GetConfig; simpl.
  rewrite Hk; simpl. rewrite Hs; simpl. rewrite Hc; simpl.
  rewrite Hp, Hv; simpl. rewrite Hr; simpl. rewrite Hst; simpl.
  eexists; split; [reflexivity|]. simpl. repeat split.
Qed.

End Constructor.



(** The two cases on the test double: a folder with a saved peer and a
    folder without an address book. *)
Example NewTss_bootstrap_peers_saved :
  filter isNewCommunication
    (history (snd (run (@NewTss Mock.externals ["/ip4/10.0.0.1/tcp/6668"] 6668 [Byte.x01]
                          "asgard" "/var/tss" Mock.config (Some true) "")
                     sdk.defaultConfig))) =
  [CallNewCommunication "asgard"
     ["/ip4/10.0.0.9/tcp/6668"; "/ip4/10.0.0.1/tcp/6668"] 6668 ""].
Proof. reflexivity. Qed.

Example NewTss_bootstrap_peers_failed :
  let construct :=
    run (@NewTss Mock.externals ["/ip4/10.0.0.1/tcp/6668"] 6668 [Byte.x01] "asgard" "/tmp/fresh"
           Mock.config (Some true) "") sdk.defaultConfig in
  filter isNewCommunication (history (snd construct)) =
    [CallNewCommunication "asgard" ["/ip4/10.0.0.1/tcp/6668"] 6668 ""] /\
  exists srv, fst construct = Returns (Ok srv).
Proof. split; [reflexivity | eexists; reflexivity]. Qed.

(** ** Start and Stop *)

Lemma Start_spec `{X : Externals} (t : TssServer) (w : World) :
  Start t w =
  (Returns (t, None),
   mkWorld (sdkConfig w)
     (history w ++ [Log InfoLevel "starting the tss servers"])).
Proof. reflexivity. Qed.

(** C6. A server is only ever returned after the constructor has started
    the transport of its communication layer with the raw private key,
    and a transport that fails to start makes the constructor return the
    error; [Start] on a constructed server returns [nil] and the server
    as it was, and writes one log line: it calls nothing. *)
Theorem NewTss_starts_transport_Start_noop `{X : Externals}
    (cmdBootstrapPeers : list Multiaddr) (p2pPort : Z) (priKey : PrivKey)
    (rendezvous baseFolder : string) (tssConf : common.TssConfig)
    (supplied : option LocalPreParams) (externalIP : string)
    (config : sdk.Config) :
  let construct :=
    run (NewTss cmdBootstrapPeers p2pPort priKey rendezvous baseFolder tssConf
           supplied externalIP) config in
  (forall srv,
     fst construct = Returns (Ok srv) ->
     (exists priKeyRawBytes,
        GetPriKeyRawBytes priKey = Ok priKeyRawBytes /\
        filter isCommunicationStart (history (snd construct)) =
          [CallCommunicationStart (p2pCommunication srv) priKeyRawBytes] /\
        Communication_Start (p2pCommunication srv) priKeyRawBytes = None) /\
     (forall w,
        Start srv w =
        (Returns (srv, None),
         mkWorld (sdkConfig w)
           (history w ++ [Log InfoLevel "starting the tss servers"]))))
  /\
  (forall comm priKeyRawBytes err,
     In (CallCommunicationStart comm priKeyRawBytes) (history (snd construct)) ->
     Communication_Start comm priKeyRawBytes = Some err ->
     fst construct = Returns (Failed (wrap "fail to start p2p network" err))).
Proof.
  intros construct. subst construct. split.
  - intros srv. run_NewTss; intros H; try discriminate;
      injection H as <-; simpl;
      (split; [eexists; repeat split; eassumption | intros w; apply Start_spec]).
  - intros comm raw err.
    run_NewTss; intros Hin Hst;
      repeat (destruct Hin as [Hin|Hin]; try discriminate);
      try contradiction;
      injection Hin as -> ->; congruence.
Qed.

Lemma NewTss_starts_transport_Start_noop_witness :
  let construct :=
    run (@NewTss Mock.externals ["/ip4/10.0.0.1/tcp/6668"] 6668 [Byte.x01]
           "asgard" "/var/tss" Mock.config (Some true) "") sdk.defaultConfig in
  exists srv,
    fst construct = Returns (Ok srv) /\
    filter isCommunicationStart (history (snd construct)) =
      [CallCommunicationStart (p2pCommunication srv) [Byte.x01]] /\
    fst (Start srv (snd construct)) = Returns (srv, None).
Proof.
  intros construct.
  destruct (@NewTss_starts_transport_Start_noop Mock.externals
              ["/ip4/10.0.0.1/tcp/6668"] 6668 [Byte.x01] "asgard" "/var/tss"
              Mock.config (Some true) "" sdk.defaultConfig) as [Hok _].
  eexists. split; [reflexivity|].
  destruct (Hok _ eq_refl) as [[raw [Hraw [Hcalls _]]] Hstart].
  injection Hraw as <-.
  split; [exact Hcalls | now rewrite Hstart].
Defined.

(** ** Pre-parameters *)

(** C4, as amended. A server is only ever returned with pre-parameters
    that pass [Validate]. When construction gets as far as the
    pre-parameter block (the key is marshalled, the state manager and the
    communication layer are created): supplied pre-parameters that are
    nil or fail [Validate] make the constructor call [GeneratePreParams]
    once, with [conf.PreParamTimeout]; a failed generation is returned as
    an error; generated pre-parameters that fail [Validate] are returned
    as the error [invalid preparams]; and supplied pre-parameters that
    pass [Validate] are kept without any generation. *)
Theorem NewTss_preParams `{X : Externals}
    (cmdBootstrapPeers : list Multiaddr) (p2pPort : Z) (priKey : PrivKey)
    (rendezvous baseFolder : string) (tssConf : common.TssConfig)
    (supplied : option LocalPreParams) (externalIP : string)
    (config : sdk.Config) :
  let construct :=
    run (NewTss cmdBootstrapPeers p2pPort priKey rendezvous baseFolder tssConf
           supplied externalIP) config in
  (forall srv,
     fst construct = Returns (Ok srv) ->
     exists inUse, preParams srv = Some inUse /\
                   LocalPreParams_Validate inUse = true)
  /\
  (forall pubKey sm comm,
     MarshalPubKey_AccPK config (PubKey_Bytes priKey) = Ok pubKey ->
     NewFileStateMgr baseFolder = Ok sm ->
     NewCommunication rendezvous
       match storage.RetrieveP2PAddresses sm with
       | Failed _ => cmdBootstrapPeers
       | Ok savedPeers => savedPeers ++ cmdBootstrapPeers
       end p2pPort externalIP = Ok comm ->
     (supplied = None \/
      (exists p, supplied = Some p /\ LocalPreParams_Validate p = false) ->
      filter isGeneratePreParams (history (snd construct)) =
        [CallGeneratePreParams (common.PreParamTimeout tssConf)] /\
      match GeneratePreParams (common.PreParamTimeout tssConf) with
      | Failed err =>
          fst construct =
          Returns (Failed (wrap "fail to generate pre parameters" err))
      | Ok fresh =>
          if LocalPreParams_Validate fresh
          then forall srv, fst construct = Returns (Ok srv) ->
                           preParams srv = Some fresh
          else fst construct = Returns (Failed "invalid preparams")
      end)
     /\
     (forall p,
        supplied = Some p -> LocalPreParams_Validate p = true ->
        filter isGeneratePreParams (history (snd construct)) = [] /\
        forall srv, fst construct = Returns (Ok srv) -> preParams srv = Some p)).
Proof.
  intros construct. subst construct. split.
  - intros srv. run_NewTss; intros H; try discriminate;
      injection H as <-; simpl; eexists; split; try reflexivity;
      match goal with
      | E : negb ?b = false |- ?b = true => now destruct b
      end.
  - intros pubKey sm comm Hk Hs Hc.
    unfold run, NewTss, bind, emit, ret, GetConfig; simpl.
    rewrite Hk; simpl. rewrite Hs; simpl. rewrite Hc; simpl.
    split.
    + intros [Hnil | [p [Hp Hv]]]; rewrite ?Hnil, ?Hp, ?Hv; simpl.
      * destruct (GeneratePreParams (common.PreParamTimeout tssConf))
          as [fresh|err]; simpl; [|split; reflexivity].
        destruct (LocalPreParams_Validate fresh); simpl;
          [|split; reflexivity].
        run_NewTss; (split; [reflexivity|]); intros srv H;
          try discriminate; now injection H as <-.
      * destruct (GeneratePreParams (common.PreParamTimeout tssConf))
          as [fresh|err]; simpl; [|split; reflexivity].
        destruct (LocalPreParams_Validate fresh); simpl;
          [|split; reflexivity].
        run_NewTss; (split; [reflexivity|]); intros srv H;
          try discriminate; now injection H as <-.
    + intros p Hp Hv. rewrite Hp, Hv. simpl.
      run_NewTss; (split; [reflexivity|]); intros srv H;
        try discriminate; now injection H as <-.
Qed.

Lemma NewTss_preParams_witness :
  let construct :=
    run (@NewTss Mock.externals ["/ip4/10.0.0.1/tcp/6668"] 6668 [Byte.x01]
           "asgard" "/var/tss" Mock.config None "") sdk.defaultConfig in
  filter isGeneratePreParams (history (snd construct)) =
    [CallGeneratePreParams 300000000000] /\
  exists srv, fst construct = Returns (Ok srv) /\ preParams srv = Some true.
Proof.
  intros construct.
  destruct (@NewTss_preParams Mock.externals
              ["/ip4/10.0.0.1/tcp/6668"] 6668 [Byte.x01] "asgard" "/var/tss"
              Mock.config None "" sdk.defaultConfig) as [_ Hblock].
  destruct (Hblock "cosmospub101" Mock.savedAddressBook
              ["/ip4/10.0.0.9/tcp/6668"; "/ip4/10.0.0.1/tcp/6668"]
              eq_refl eq_refl eq_refl) as [Hfresh _].
  destruct (Hfresh (or_introl eq_refl)) as [Hcalls Hsrv].
  split; [exact Hcalls|].
  eexists. split; [reflexivity|].
  apply Hsrv. reflexivity.
Defined.

(** C4 as stated fails: with nil pre-parameters and a base folder in
    which no state manager can be created, the constructor returns
    before the pre-parameter block and generates nothing. *)
Lemma NewTss_preParams_counterexample :
  let construct :=
    run (@NewTss Mock.externals ["/ip4/10.0.0.1/tcp/6668"] 6668 [Byte.x01]
           "asgard" "/dev/null/tss" Mock.config None "") sdk.defaultConfig in
  fst construct = Returns (Failed "fail to create file state manager") /\
  invoked isGeneratePreParams (snd construct) = false.
Proof. split; reflexivity. Qed.

(** A generation that fails within the timeout is an error of the
    constructor as well. *)
Example NewTss_generation_timeout :
  fst (run (@NewTss Mock.externals [] 6668 [Byte.x01] "asgard" "/var/tss"
              {| common.PartyTimeout := 1; common.KeyGenTimeout := 1;
                 common.KeySignTimeout := 1; common.PreParamTimeout := 0;
                 common.EnableMonitor := true |} None "")
         sdk.defaultConfig) =
  Returns (Failed "fail to generate pre parameters: timeout").
Proof. reflexivity. Qed.

(** ** The bech32 prefixes *)

Lemma SetupBech32Prefix_spec `{X : Externals} (w : World) :
  conversion.SetupBech32Prefix w =
  (Returns tt, mkWorld (conversion.bech32Prefixes (sdkConfig w)) (history w)).
Proof. reflexivity. Qed.

(** C5, as amended. [SetupBech32Prefix] is an unguarded setter of the
    process-wide configuration: every call overwrites the three prefix
    pairs with the same constants, whatever the configuration was, so a
    second call in a row changes nothing; the constructor does not call
    it and leaves the configuration as it found it. *)
Theorem SetupBech32Prefix_idempotent_unguarded `{X : Externals}
    (w : World)
    (cmdBootstrapPeers : list Multiaddr) (p2pPort : Z) (priKey : PrivKey)
    (rendezvous baseFolder : string) (tssConf : common.TssConfig)
    (supplied : option LocalPreParams) (externalIP : string) :
  sdkConfig (snd (conversion.SetupBech32Prefix w)) =
    {| sdk.bech32AccountAddr := "ordinox";
       sdk.bech32AccountPub := "thorpub";
       sdk.bech32ValidatorAddr := "ordinox";
       sdk.bech32ValidatorPub := "thorvpub";
       sdk.bech32ConsensusAddr := "or";
       sdk.bech32ConsensusPub := "thorcpub" |}
  /\
  (conversion.SetupBech32Prefix ;; conversion.SetupBech32Prefix) w =
    conversion.SetupBech32Prefix w
  /\
  sdkConfig (snd (NewTss cmdBootstrapPeers p2pPort priKey rendezvous baseFolder
                    tssConf supplied externalIP w)) = sdkConfig w.
Proof.
  repeat split.
  destruct w as [config h]. run_NewTss; reflexivity.
Qed.

(** C5 as stated fails: the constructor run under the SDK's default
    prefixes leaves them in place and marshals the node's key under them;
    and a call that follows an earlier call is not skipped: it overwrites
    a prefix that was changed in between. *)
Lemma SetupBech32Prefix_counterexample :
  let construct :=
    run (@NewTss Mock.externals ["/ip4/10.0.0.1/tcp/6668"] 6668 [Byte.x01]
           "asgard" "/var/tss" Mock.config (Some true) "") sdk.defaultConfig in
  (exists srv, fst construct = Returns (Ok srv) /\
               localNodePubKey srv = "cosmospub101") /\
  sdkConfig (snd construct) = sdk.defaultConfig /\
  sdk.bech32AccountPub (sdkConfig (snd construct)) <> "thorpub" /\
  let once :=
    @run Mock.externals _
      (conversion.SetupBech32Prefix ;;
       modifyConfig (sdk.SetBech32PrefixForAccount "cosmos" "cosmospub"))
      sdk.defaultConfig in
  let again :=
    @run Mock.externals _
      (conversion.SetupBech32Prefix ;;
       modifyConfig (sdk.SetBech32PrefixForAccount "cosmos" "cosmospub") ;;
       conversion.SetupBech32Prefix)
      sdk.defaultConfig in
  sdk.bech32AccountPub (sdkConfig (snd once)) = "cosmospub" /\
  sdk.bech32AccountPub (sdkConfig (snd again)) = "thorpub".
Proof.
  repeat split; try reflexivity.
  - eexists. split; reflexivity.
  - discriminate.
Qed.

(** ** Stopping *)

Lemma NewTss_stopChan_open `{X : Externals}
    (cmdBootstrapPeers : list Multiaddr) (p2pPort : Z) (priKey : PrivKey)
    (rendezvous baseFolder : string) (tssConf : common.TssConfig)
    (supplied : option LocalPreParams) (externalIP : string) (w : World)
    (srv : TssServer) :
  fst (NewTss cmdBootstrapPeers p2pPort priKey rendezvous baseFolder tssConf
         supplied externalIP w) = Returns (Ok srv) ->
  stopChan srv = ChanOpen.
Proof.
  destruct w as [config h].
  run_NewTss; intros H; try discriminate; now injection H as <-.
Qed.

(** C9. [Stop] on a server whose stop channel is open (as the
    constructor leaves it) returns with the channel closed, after
    stopping the p2p communication and then the party coordinator; [Stop]
    on the server so obtained panics on the close of the closed channel
    and does nothing else. *)
Theorem Stop_twice_panics `{X : Externals} (t : TssServer) (w : World) :
  stopChan t = ChanOpen ->
  exists stopped after,
    Stop t w = (Returns stopped, after) /\
    stopped = close_stopChan t /\
    stopChan stopped = ChanClosed /\
    filter isCall
      (skipn (length (history w)) (history after)) =
      [CallCommunicationStop (p2pCommunication t);
       CallPartyCoordinatorStop (partyCoordinator t)] /\
    forall w', Stop stopped w' = (Panics "close of closed channel", w').
Proof.
  intros Hopen.
  unfold Stop. rewrite Hopen.
  unfold bind, emit, ret, panic; simpl.
  assert (Hskip : forall (l : list Event) k, skipn (length l) (l ++ k) = k).
  { induction l as [|e l IH]; intros k; simpl; [reflexivity | apply IH]. }
  destruct (Communication_Stop (p2pCommunication t)) as [err|]; simpl;
    do 2 eexists; (split; [reflexivity|]); simpl;
    repeat rewrite <- app_assoc; rewrite Hskip; simpl;
    repeat split.
Qed.

Lemma Stop_twice_panics_witness :
  exists stopped after,
    Stop Mock.server (mkWorld sdk.defaultConfig []) = (Returns stopped, after) /\
    stopped = close_stopChan Mock.server /\
    stopChan stopped = ChanClosed /\
    filter isCall
      (skipn (length (history (mkWorld sdk.defaultConfig [])))
         (history after)) =
      [CallCommunicationStop (p2pCommunication Mock.server);
       CallPartyCoordinatorStop (partyCoordinator Mock.server)] /\
    forall w', Stop stopped w' = (Panics "close of closed channel", w').
Proof.
  apply (Stop_twice_panics Mock.server (mkWorld sdk.defaultConfig [])).
  reflexivity.
Defined.

Example Stop_twice_on_the_double :
  fst (run (stopped <- Stop Mock.server ;; Stop stopped) sdk.defaultConfig) =
  Panics "close of closed channel".
Proof. reflexivity. Qed.


(** * Further properties of the facade *)

(** ** The message id *)

(** X1. Two keygen requests whose [Keys] are permutations of each other
    get the same message id, whatever their block heights and versions
    and wherever they are handled. *)
Theorem requestToMsgId_keygen_permutation `{X : Externals}
    (t1 t2 : TssServer) (w1 w2 : World) (r1 r2 : keygen.Request) :
  Permutation (keygen.Keys r1) (keygen.Keys r2) ->
  fst (requestToMsgId t1 (IsKeygen r1) w1) =
  fst (requestToMsgId t2 (IsKeygen r2) w2).
Proof.
  intros HK. rewrite !requestToMsgId_keygen. simpl.
  now rewrite (GoStringFacts.sort_Strings_permuted _ _ HK).
Qed.

Lemma requestToMsgId_keygen_permutation_witness :
  fst (run (requestToMsgId Mock.server
              (IsKeygen (keygen.mkRequest ["b"; "c"; "a"] 5 "0.14.0")))
         sdk.defaultConfig) =
  fst (run (requestToMsgId Mock.server
              (IsKeygen (keygen.mkRequest ["a"; "b"; "c"] 9 "0.13.0")))
         sdk.defaultConfig).
Proof.
  apply (requestToMsgId_keygen_permutation Mock.server Mock.server _ _
           (keygen.mkRequest ["b"; "c"; "a"] 5 "0.14.0")
           (keygen.mkRequest ["a"; "b"; "c"] 9 "0.13.0")).
  simpl. apply Permutation_sym. apply (Permutation_cons_append ["b"; "c"] "a").
Defined.

(** X2. The id does not record the kind of the request: a keysign
    request without messages gets the id of the keygen request over the
    same public keys. *)
Theorem requestToMsgId_keysign_without_messages `{X : Externals}
    (t : TssServer) (w : World) (kg : keygen.Request) (ks : keysign.Request) :
  keysign.Messages ks = [] ->
  Permutation (keysign.SignerPubKeys ks) (keygen.Keys kg) ->
  requestToMsgId t (IsKeysign ks) w = requestToMsgId t (IsKeygen kg) w.
Proof.
  intros HM HK. rewrite requestToMsgId_keysign, requestToMsgId_keygen.
  rewrite HM, (GoStringFacts.sort_Strings_permuted _ _ HK). reflexivity.
Qed.

Lemma requestToMsgId_keysign_without_messages_witness :
  run (requestToMsgId Mock.server
         (IsKeysign (keysign.mkRequest "pool" [] ["b"; "a"] 5 "0.14.0")))
    sdk.defaultConfig =
  run (requestToMsgId Mock.server
         (IsKeygen (keygen.mkRequest ["a"; "b"] 5 "0.14.0")))
    sdk.defaultConfig.
Proof.
  apply (requestToMsgId_keysign_without_messages Mock.server
           (mkWorld sdk.defaultConfig [])
           (keygen.mkRequest ["a"; "b"] 5 "0.14.0")
           (keysign.mkRequest "pool" [] ["b"; "a"] 5 "0.14.0")).
  - reflexivity.
  - simpl. apply perm_swap.
Defined.

(** ** Joining a party *)

(** Unfolds a run of [joinParty] and splits on every answer of the
    collaborators. *)
Ltac run_joinParty :=
  unfold run, joinParty, bind, emit, ret; simpl;
  repeat match goal with
         | |- context [match ?e with _ => _ end] =>
             let E := fresh "E" in destruct e eqn:E; simpl
         end.

(** X3. Whatever the version and the participants, a call of
    [joinParty] makes at most one call to the party coordinator. *)
Theorem joinParty_at_most_one_coordinator_call `{X : Externals}
    (t : TssServer) (msgID version : string) (blockHeight : Z)
    (participants : list string) (threshold : Z) (sigChan : SigChan)
    (config : sdk.Config) :
  (length (filter isCoordinatorCall
             (history (snd (run (joinParty t msgID version blockHeight
                                   participants threshold sigChan) config))))
   <= 1)%nat.
Proof. run_joinParty; auto. Qed.

(** X4. On the leaderless path the block height, the threshold and the
    signature channel play no part: the result and the history are the
    same whatever they are. *)
Theorem joinParty_leaderless_ignores_leader_arguments `{X : Externals}
    (t : TssServer) (msgID version : string) (participants : list string)
    (blockHeight1 blockHeight2 threshold1 threshold2 : Z)
    (sigChan1 sigChan2 : SigChan) (config : sdk.Config) :
  VersionLTCheck version NEWJOINPARTYVERSION = Ok true ->
  run (joinParty t msgID version blockHeight1 participants threshold1 sigChan1)
    config =
  run (joinParty t msgID version blockHeight2 participants threshold2 sigChan2)
    config.
Proof.
  intros Hv.
  destruct (GetPeerIDsFromPubKeys participants) as [ids|e] eqn:Hc.
  - now rewrite !(joinParty_leaderless_converted _ _ _ _ _ _ _ _ ids Hv Hc).
  - now rewrite !(joinParty_leaderless_unconverted _ _ _ _ _ _ _ _ e Hv Hc).
Qed.

Lemma joinParty_leaderless_ignores_leader_arguments_witness :
  run (joinParty Mock.server "id" "0.13.0" 1 ["a"; "b"] 1 tt) sdk.defaultConfig =
  run (joinParty Mock.server "id" "0.13.0" 99 ["a"; "b"] 3 tt) sdk.defaultConfig.
Proof.
  apply (joinParty_leaderless_ignores_leader_arguments Mock.server "id" "0.13.0"
           ["a"; "b"] 1 99 1 3 tt tt sdk.defaultConfig).
  reflexivity.
Defined.

(** X5. A call of [joinParty] that does not reach the party coordinator
    returns an error and no online peer; so a call that returns no error
    has called the coordinator. *)
Theorem joinParty_fails_without_coordinator `{X : Externals}
    (t : TssServer) (msgID version : string) (blockHeight : Z)
    (participants : list string) (threshold : Z) (sigChan : SigChan)
    (config : sdk.Config) :
  let call := run (joinParty t msgID version blockHeight participants
                     threshold sigChan) config in
  invoked isCoordinatorCall (snd call) = false ->
  exists leader err, fst call = Returns ([], leader, Some err).
Proof.
  unfold invoked. run_joinParty; intros H; try discriminate;
    do 2 eexists; reflexivity.
Qed.

Lemma joinParty_fails_without_coordinator_witness :
  exists leader err,
    fst (run (joinParty Mock.server "id" "0.14" 1 ["a"] 1 tt) sdk.defaultConfig)
    = Returns ([], leader, Some err).
Proof.
  apply (joinParty_fails_without_coordinator Mock.server "id" "0.14" 1 ["a"] 1 tt
           sdk.defaultConfig).
  reflexivity.
Defined.

(** X6. On the leader-based path, with participants whose keys convert,
    [joinParty] returns what [JoinPartyWithLeader] returns, online peers,
    leader and error alike, for the message id, the block height, the
    peer ids as strings in the order of the participants' keys, the
    threshold and the signature channel it was given. *)
Theorem joinParty_leader_passes_through `{X : Externals}
    (t : TssServer) (msgID version : string) (blockHeight : Z)
    (participants : list string) (threshold : Z) (sigChan : SigChan)
    (config : sdk.Config) (peersID : list PeerID) :
  VersionLTCheck version NEWJOINPARTYVERSION = Ok false ->
  participants <> [] ->
  GetPeerIDsFromPubKeys participants = Ok peersID ->
  fst (run (joinParty t msgID version blockHeight participants threshold
              sigChan) config) =
  Returns (JoinPartyWithLeader (partyCoordinator t) msgID blockHeight
             (map PeerID_String peersID) threshold sigChan).
Proof.
  intros Hv Hne Hc.
  now rewrite (joinParty_leader_converted _ _ _ _ _ _ _ _ peersID Hv Hne Hc).
Qed.

Lemma joinParty_leader_passes_through_witness :
  fst (run (joinParty Mock.server "id" "0.14.0" 7 ["b"; "a"] 1 tt)
         sdk.defaultConfig) =
  Returns (["b"; "a"], "b", None).
Proof.
  apply (joinParty_leader_passes_through Mock.server "id" "0.14.0" 7 ["b"; "a"]
           1 tt sdk.defaultConfig ["b"; "a"]).
  - reflexivity.
  - discriminate.
  - reflexivity.
Defined.

(** ** The constructor *)

(** X7. The calls of the constructor are always an initial segment of
    one sequence: state manager, address book, communication layer, the
    generation of pre-parameters when the supplied ones are nil or
    invalid, transport start, party coordinator, signature notifier.
    Wherever it stops, nothing later in the sequence has been called. *)
Theorem NewTss_calls_in_order `{X : Externals}
    (cmdBootstrapPeers : list Multiaddr) (p2pPort : Z) (priKey : PrivKey)
    (rendezvous baseFolder : string) (tssConf : common.TssConfig)
    (supplied : option LocalPreParams) (externalIP : string)
    (config : sdk.Config) :
  exists k,
    map callKind
      (filter isCall
         (history (snd (run (NewTss cmdBootstrapPeers p2pPort priKey rendezvous
                               baseFolder tssConf supplied externalIP) config))))
    = firstn k (constructorCalls (needsFreshPreParams supplied)).
Proof.
  unfold needsFreshPreParams, constructorCalls.
  run_NewTss;
    first [ now exists 0%nat | now exists 1%nat | now exists 3%nat
          | now exists 4%nat | now exists 5%nat | now exists 6%nat
          | now exists 7%nat ].
Qed.

(** X8. A construction that fails has created neither the party
    coordinator nor the signature notifier; one that succeeds has created
    each once, on the host of the server's communication layer, the
    coordinator with [conf.PartyTimeout]. *)
Theorem NewTss_coordinator_and_notifier `{X : Externals}
    (cmdBootstrapPeers : list Multiaddr) (p2pPort : Z) (priKey : PrivKey)
    (rendezvous baseFolder : string) (tssConf : common.TssConfig)
    (supplied : option LocalPreParams) (externalIP : string)
    (config : sdk.Config) :
  let construct :=
    run (NewTss cmdBootstrapPeers p2pPort priKey rendezvous baseFolder tssConf
           supplied externalIP) config in
  (forall err,
     fst construct = Returns (Failed err) ->
     filter isNewPartyCoordinator (history (snd construct)) = [] /\
     filter isNewSignatureNotifier (history (snd construct)) = [])
  /\
  (forall srv,
     fst construct = Returns (Ok srv) ->
     filter isNewPartyCoordinator (history (snd construct)) =
       [CallNewPartyCoordinator (Communication_GetHost (p2pCommunication srv))
          (common.PartyTimeout tssConf)] /\
     filter isNewSignatureNotifier (history (snd construct)) =
       [CallNewSignatureNotifier (Communication_GetHost (p2pCommunication srv))]).
Proof.
  intros construct. subst construct. split.
  - intros err. run_NewTss; intros H; try discriminate; split; reflexivity.
  - intros srv. run_NewTss; intros H; try discriminate;
      injection H as <-; split; reflexivity.
Qed.

Lemma NewTss_coordinator_and_notifier_witness :
  let construct :=
    run (@NewTss Mock.externals ["/ip4/10.0.0.1/tcp/6668"] 6668 [Byte.x01]
           "asgard" "/var/tss" Mock.config (Some false) "") sdk.defaultConfig in
  filter isNewPartyCoordinator (history (snd construct)) =
    [CallNewPartyCoordinator tt 45000000000] /\
  filter isNewSignatureNotifier (history (snd construct)) =
    [CallNewSignatureNotifier tt].
Proof.
  intros construct.
  destruct (@NewTss_coordinator_and_notifier Mock.externals
              ["/ip4/10.0.0.1/tcp/6668"] 6668 [Byte.x01] "asgard" "/var/tss"
              Mock.config (Some false) "" sdk.defaultConfig) as [_ Hok].
  exact (Hok _ eq_refl).
Defined.

(** X9. The server the constructor returns: it holds the configuration
    and the private key it was given, the public key marshalled under the
    account prefix in force at construction, the state manager of the
    base folder, a logger of module [tss], an unlocked keygen mutex, an
    open stop channel and no join-party channel; its metrics are enabled
    exactly when [conf.EnableMonitor] is set. *)
Theorem NewTss_server_fields `{X : Externals}
    (cmdBootstrapPeers : list Multiaddr) (p2pPort : Z) (priKey : PrivKey)
    (rendezvous baseFolder : string) (tssConf : common.TssConfig)
    (supplied : option LocalPreParams) (externalIP : string)
    (config : sdk.Config) (srv : TssServer) :
  fst (run (NewTss cmdBootstrapPeers p2pPort priKey rendezvous baseFolder
              tssConf supplied externalIP) config) = Returns (Ok srv) ->
  conf srv = tssConf /\
  privateKey srv = priKey /\
  MarshalPubKey_AccPK config (PubKey_Bytes priKey) = Ok (localNodePubKey srv) /\
  NewFileStateMgr baseFolder = Ok (stateManager srv) /\
  logger srv = [("module", "tss")] /\
  tssKeyGenLocker srv = Unlocked /\
  stopChan srv = ChanOpen /\
  joinPartyChan srv = ChanNil /\
  partyCoordinator srv =
    NewPartyCoordinator (Communication_GetHost (p2pCommunication srv))
      (common.PartyTimeout tssConf) /\
  signatureNotifier srv =
    NewSignatureNotifier (Communication_GetHost (p2pCommunication srv)) /\
  tssMetrics srv =
    (if common.EnableMonitor tssConf then Metric_Enable NewMetric
     else NewMetric).
Proof.
  run_NewTss; intros H; try discriminate; injection H as <-; simpl;
    repeat split; reflexivity.
Qed.

Lemma NewTss_server_fields_witness :
  exists srv,
    fst (run (@NewTss Mock.externals ["/ip4/10.0.0.1/tcp/6668"] 6668 [Byte.x01]
                "asgard" "/var/tss" Mock.config None "") sdk.defaultConfig)
    = Returns (Ok srv) /\
    localNodePubKey srv = "cosmospub101" /\
    tssMetrics srv = false.
Proof.
  eexists. split; [reflexivity|].
  destruct (@NewTss_server_fields Mock.externals
              ["/ip4/10.0.0.1/tcp/6668"] 6668 [Byte.x01] "asgard" "/var/tss"
              Mock.config None "" sdk.defaultConfig _ eq_refl)
    as [_ [_ [Hkey [_ [_ [_ [_ [_ [_ [_ Hmetrics]]]]]]]]]].
  split; [reflexivity | exact Hmetrics].
Defined.

(** X10. After [SetupBech32Prefix] the constructor no longer depends
    on what the configuration was: from any configuration,
    [SetupBech32Prefix] followed by [NewTss] does what [NewTss] does under
    the prefixes [ordinox]/[thorpub], [ordinox]/[thorvpub] and
    [or]/[thorcpub]. *)
Theorem SetupBech32Prefix_then_NewTss `{X : Externals}
    (cmdBootstrapPeers : list Multiaddr) (p2pPort : Z) (priKey : PrivKey)
    (rendezvous baseFolder : string) (tssConf : common.TssConfig)
    (supplied : option LocalPreParams) (externalIP : string)
    (config : sdk.Config) :
  run (conversion.SetupBech32Prefix ;;
       NewTss cmdBootstrapPeers p2pPort priKey rendezvous baseFolder tssConf
         supplied externalIP) config =
  run (NewTss cmdBootstrapPeers p2pPort priKey rendezvous baseFolder tssConf
         supplied externalIP)
    {| sdk.bech32AccountAddr := "ordinox";
       sdk.bech32AccountPub := "thorpub";
       sdk.bech32ValidatorAddr := "ordinox";
       sdk.bech32ValidatorPub := "thorvpub";
       sdk.bech32ConsensusAddr := "or";
       sdk.bech32ConsensusPub := "thorcpub" |}.
Proof. reflexivity. Qed.

(** ** Start, Stop and the join-party channel *)

(** X11. An error of the p2p communication on shutdown does not stop
    [Stop]: the error is logged, the party coordinator is stopped all the
    same and [Stop] returns with the stop channel closed. *)
Theorem Stop_survives_p2p_error `{X : Externals} (t : TssServer) (w : World)
    (err : error) :
  stopChan t = ChanOpen ->
  Communication_Stop (p2pCommunication t) = Some err ->
  Stop t w =
  (Returns (close_stopChan t),
   mkWorld (sdkConfig w)
     (history w ++
      [CallCommunicationStop (p2pCommunication t);
       Log ErrorLevel "error in shutdown the p2p server";
       CallPartyCoordinatorStop (partyCoordinator t);
       Log InfoLevel "The tss and p2p server has been stopped successfully"])).
Proof.
  intros Hopen Herr. unfold Stop. rewrite Hopen.
  unfold bind, emit, ret; simpl. rewrite Herr; simpl.
  now rewrite <- !app_assoc.
Qed.

(** X12. [Stop] on a server whose stop channel is not open, nil or
    already closed, panics before anything is stopped or logged. *)
Theorem Stop_panics_unless_open `{X : Externals} (t : TssServer) (w : World) :
  stopChan t <> ChanOpen ->
  exists reason, Stop t w = (Panics reason, w).
Proof.
  intros Hnot. unfold Stop, bind, panic.
  destruct (stopChan t); [eexists; reflexivity | congruence | eexists; reflexivity].
Qed.

(** X13. [Start] does not look at the stop channel: on a server that
    [Stop] has stopped it returns [nil], and the server stays stopped. *)
Theorem Start_after_Stop `{X : Externals} (t : TssServer) (w : World) :
  stopChan t = ChanOpen ->
  exists stopped after,
    (stopped <- Stop t ;; Start stopped) w = (Returns (stopped, None), after) /\
    stopChan stopped = ChanClosed.
Proof.
  intros Hopen. unfold Stop, Start. rewrite Hopen.
  unfold bind, emit, ret; simpl.
  destruct (Communication_Stop (p2pCommunication t)); simpl;
    do 2 eexists; split; reflexivity.
Qed.

(** X14. A server as the constructor returns it has no join-party
    channel, so [notifyJoinPartyChan] sends nothing; after
    [setJoinPartyChan] with an open channel it sends, and after
    [unsetJoinPartyChan] it sends nothing again and cannot panic, even if
    the channel that had been set is closed. *)
Theorem notifyJoinPartyChan_only_when_set `{X : Externals}
    (cmdBootstrapPeers : list Multiaddr) (p2pPort : Z) (priKey : PrivKey)
    (rendezvous baseFolder : string) (tssConf : common.TssConfig)
    (supplied : option LocalPreParams) (externalIP : string)
    (config : sdk.Config) (srv : TssServer) :
  fst (run (NewTss cmdBootstrapPeers p2pPort priKey rendezvous baseFolder
              tssConf supplied externalIP) config) = Returns (Ok srv) ->
  notifyJoinPartyChan srv = Returns NothingSent /\
  notifyJoinPartyChan (setJoinPartyChan srv ChanOpen) = Returns ValueSent /\
  forall jpc,
    notifyJoinPartyChan (unsetJoinPartyChan (setJoinPartyChan srv jpc))
    = Returns NothingSent.
Proof.
  intros H.
  assert (Hnil : joinPartyChan srv = ChanNil).
  { revert H. run_NewTss; intros H; try discriminate; now injection H as <-. }
  unfold notifyJoinPartyChan. rewrite Hnil. repeat split.
Qed.

Lemma Stop_survives_p2p_error_witness :
  fst (@Stop failingStop failingStopServer (mkWorld sdk.defaultConfig [])) =
  Returns (@close_stopChan failingStop failingStopServer).
Proof.
  rewrite (@Stop_survives_p2p_error failingStop failingStopServer
             (mkWorld sdk.defaultConfig []) "context deadline exceeded"
             eq_refl eq_refl).
  reflexivity.
Defined.

Lemma Stop_panics_unless_open_witness :
  exists reason,
    Stop (close_stopChan Mock.server) (mkWorld sdk.defaultConfig []) =
    (Panics reason, mkWorld sdk.defaultConfig []).
Proof.
  apply (Stop_panics_unless_open (close_stopChan Mock.server)
           (mkWorld sdk.defaultConfig [])).
  discriminate.
Defined.

Lemma Start_after_Stop_witness :
  exists stopped after,
    (stopped <- Stop Mock.server ;; Start stopped) (mkWorld sdk.defaultConfig [])
    = (Returns (stopped, None), after) /\
    stopChan stopped = ChanClosed.
Proof.
  apply (Start_after_Stop Mock.server (mkWorld sdk.defaultConfig [])).
  reflexivity.
Defined.

Lemma notifyJoinPartyChan_only_when_set_witness :
  exists srv,
    fst (run (@NewTss Mock.externals [] 6668 [Byte.x01] "asgard" "/var/tss"
                Mock.config (Some true) "") sdk.defaultConfig)
    = Returns (Ok srv) /\
    notifyJoinPartyChan srv = Returns NothingSent /\
    notifyJoinPartyChan (setJoinPartyChan srv ChanOpen) = Returns ValueSent /\
    forall jpc,
      notifyJoinPartyChan (unsetJoinPartyChan (setJoinPartyChan srv jpc))
      = Returns NothingSent.
Proof.
  eexists. split; [reflexivity|].
  apply (@notifyJoinPartyChan_only_when_set Mock.externals [] 6668 [Byte.x01]
           "asgard" "/var/tss" Mock.config (Some true) "" sdk.defaultConfig).
  reflexivity.
Defined.

(** ** Known peers *)

Section KnownPeers.

Context `{X : Externals} `{N : !Network}.

(** The [PeerInfo] of one connection. *)
Let info (conn : Conn) : PeerInfo :=
  {| ID := PeerID_String (Conn_RemotePeer conn);
     Address := fst (ValueForProtocol_IP4 (Conn_RemoteMultiaddr conn)) |}.

Lemma GetKnownPeers_loop (conns : list Conn) :
  forall infos,
    fold_left
      (fun infos conn =>
         let peer := Conn_RemotePeer conn in
         let addrs := Conn_RemoteMultiaddr conn in
         let '(ip, _) := ValueForProtocol_IP4 addrs in
         let pi := {| ID := PeerID_String peer; Address := ip |} in
         infos ++ [pi]) conns infos
    = infos ++ map info conns.
Proof.
  induction conns as [|conn conns IH]; intros infos; simpl.
  - now rewrite app_nil_r.
  - rewrite IH. unfold info at 2.
    destruct (ValueForProtocol_IP4 (Conn_RemoteMultiaddr conn)) as [ip e].
    simpl. now rewrite <- app_assoc.
Qed.

End KnownPeers.

(** X15. [GetKnownPeers] lists the open connections of the host one by
    one and in their order: the remote peer id as a string with the
    [ip4] value of the remote address. A connection whose address has no
    [ip4] value is listed all the same, with whatever value came with the
    error, and a peer with several connections is listed once for each;
    the list is as long as the list of connections. *)
Theorem GetKnownPeers_lists_connections `{X : Externals} `{N : !Network}
    (t : TssServer) :
  let conns := Host_Conns (Communication_GetHost (p2pCommunication t)) in
  GetKnownPeers t =
    map (fun conn =>
           {| ID := PeerID_String (Conn_RemotePeer conn);
              Address := fst (ValueForProtocol_IP4 (Conn_RemoteMultiaddr conn)) |})
        conns
  /\ length (GetKnownPeers t) = length conns.
Proof.
  intros conns. unfold GetKnownPeers. fold conns.
  rewrite GetKnownPeers_loop. simpl. split; [reflexivity|].
  now rewrite length_map.
Qed.

Example GetKnownPeers_on_the_double :
  GetKnownPeers Mock.server =
  [ {| ID := "peerA"; Address := "10.0.0.1" |};
    {| ID := "peerB"; Address := "" |};
    {| ID := "peerA"; Address := "10.0.0.1" |} ].
Proof. reflexivity. Qed.

(** * The benchmark tool *)

Module benchgenFacts.
Import benchgen.

Lemma append_inv_head (s a b : string) :
  (s ++ a)%string = (s ++ b)%string -> a = b.
Proof. induction s as [|c s IH]; simpl; intros H; [assumption|]. injection H. auto. Qed.

Lemma list_ascii_of_append (a b : string) :
  list_ascii_of_string (a ++ b) =
  list_ascii_of_string a ++ list_ascii_of_string b.
Proof. induction a as [|c a IH]; simpl; [reflexivity | now rewrite IH]. Qed.

Lemma append_inv_tail (s a b : string) :
  (a ++ s)%string = (b ++ s)%string -> a = b.
Proof.
  intros H. apply (f_equal list_ascii_of_string) in H.
  rewrite !list_ascii_of_append in H. apply app_inv_tail in H.
  apply (f_equal string_of_list_ascii) in H.
  now rewrite !string_of_list_ascii_of_string in H.
Qed.

Lemma to_int_proper (z : Z) :
  Z.to_int z <> Decimal.Pos Decimal.Nil /\ Z.to_int z <> Decimal.Neg Decimal.Nil.
Proof.
  destruct z as [|p|p]; simpl; split; try discriminate;
    intros H; injection H; apply DecimalPos.Unsigned.to_uint_nonnil.
Qed.

(** [%d] prints different integers differently. *)
Lemma formatInt_inj (z1 z2 : Z) : formatInt z1 = formatInt z2 -> z1 = z2.
Proof.
  unfold formatInt. intros H.
  apply (f_equal DecimalString.NilZero.int_of_string) in H.
  destruct (to_int_proper z1) as [P1 N1], (to_int_proper z2) as [P2 N2].
  rewrite !DecimalString.NilZero.isi in H by assumption.
  injection H as H. apply (f_equal Z.of_int) in H.
  now rewrite !DecimalZ.of_to in H.
Qed.

Lemma path_inj (dir : string) (i j : Z) :
  makeKeyGenDataFilePath dir i = makeKeyGenDataFilePath dir j -> i = j.
Proof.
  unfold makeKeyGenDataFilePath. intros H.
  apply append_inv_head in H.
  apply (append_inv_head "/keygen_data_") in H.
  apply append_inv_tail in H.
  now apply formatInt_inj.
Qed.

Lemma wrapInt_small (z : Z) : isInt z -> wrapInt z = z.
Proof.
  unfold isInt, wrapInt. intros H.
  rewrite Z.mod_small; lia.
Qed.

Lemma writeFile_same (fs : FileSystem) (name : string) (content : list byte) :
  writeFile fs name content name = Some (File content).
Proof. unfold writeFile. now rewrite String.eqb_refl. Qed.

Lemma writeFile_other (fs : FileSystem) (name path : string)
    (content : list byte) :
  path <> name -> writeFile fs name content path = fs path.
Proof.
  intros H. unfold writeFile.
  now destruct (String.eqb_spec path name).
Qed.

Lemma testParties_index (n : nat) (i P : Z) :
  index (testParties n) i = Some P -> P = i.
Proof.
  unfold index, testParties. destruct (Z.ltb_spec i 0) as [|Hi]; [discriminate|].
  intros H. rewrite nth_error_map in H.
  destruct (nth_error (seq 0 n) (Z.to_nat i)) as [k|] eqn:Hk; [|discriminate].
  injection H as <-.
  assert (Hlt : (Z.to_nat i < n)%nat).
  { rewrite <- (length_seq n 0). apply (proj1 (nth_error_Some _ _)).
    rewrite Hk. discriminate. }
  rewrite (nth_error_nth' _ 0%nat) in Hk by now rewrite length_seq.
  rewrite seq_nth in Hk by assumption. injection Hk as <-. lia.
Qed.

Lemma filter_without_one (from : Z) (parties : list Z) :
  NoDup parties -> In from parties ->
  S (length (filter (fun P => negb (P =? from)%Z) parties)) = length parties.
Proof.
  induction parties as [|P parties IH]; intros Hnd Hin; [contradiction|].
  apply NoDup_cons_iff in Hnd. destruct Hnd as [HnotIn Hnd]. simpl.
  destruct (Z.eqb_spec P from) as [->|Hne]; simpl.
  - f_equal. clear IH Hin.
    induction parties as [|Q parties IH]; simpl; [reflexivity|].
    destruct (Z.eqb_spec Q from) as [->|_]; simpl.
    + exfalso. apply HnotIn. now left.
    + f_equal. apply IH.
      * intros H. apply HnotIn. now right.
      * now apply NoDup_cons_iff in Hnd.
  - f_equal. apply IH; [assumption|].
    destruct Hin as [Heq|Hin]; [congruence | assumption].
Qed.

End benchgenFacts.

(** X16. [main] runs the key generation only for a threshold [t] and a
    number of parties [n] with [1 <= t < n], where [t] is the quorum less
    one, in the directory named by the first argument, which did not
    exist and which it has just created. *)
Theorem main_runs_keygen_only_when_valid
    (quorum parties : Z) (args : list string)
    (statNotExist mkdirFails : string -> bool) (dir : string) (t n : Z) :
  benchgen.isInt quorum ->
  benchgen.main quorum parties args statNotExist mkdirFails
    = benchgen.RunKeyGen dir t n ->
  t = (quorum - 1)%Z /\ n = parties /\ (1 <= t < n)%Z /\
  hd_error args = Some dir /\
  statNotExist dir = true /\ mkdirFails dir = false.
Proof.
  intros Hint. unfold benchgen.main.
  destruct ((parties <=? 0) || (quorum <=? 1) || (parties <? quorum))%Z eqn:Hflags;
    [discriminate|].
  apply orb_false_elim in Hflags. destruct Hflags as [Hflags Hlt].
  apply orb_false_elim in Hflags. destruct Hflags as [Hn Hq].
  apply Z.leb_gt in Hn, Hq. apply Z.ltb_ge in Hlt.
  destruct args as [|dir0 rest]; [discriminate|].
  destruct (statNotExist dir0) eqn:Hstat; simpl; [|discriminate].
  destruct (mkdirFails dir0) eqn:Hmk; [discriminate|].
  intros H. injection H as <- <- <-.
  rewrite benchgenFacts.wrapInt_small by (unfold benchgen.isInt in *; lia).
  repeat split; auto; lia.
Qed.

Lemma main_runs_keygen_only_when_valid_witness :
  benchgen.main 2 20 ["data"] (fun _ => true) (fun _ => false)
    = benchgen.RunKeyGen "data" 1 20 /\
  (1 <= 1 < 20)%Z.
Proof.
  split; [reflexivity|].
  apply (main_runs_keygen_only_when_valid 2 20 ["data"]
           (fun _ => true) (fun _ => false) "data" 1 20).
  - unfold benchgen.isInt. lia.
  - reflexivity.
Defined.

(** X17. For one directory, different party indices have different
    fixture files. *)
Theorem makeKeyGenDataFilePath_inj (dir : string) (i j : Z) :
  benchgen.makeKeyGenDataFilePath dir i = benchgen.makeKeyGenDataFilePath dir j ->
  i = j.
Proof. apply benchgenFacts.path_inj. Qed.

Lemma makeKeyGenDataFilePath_inj_witness :
  benchgen.makeKeyGenDataFilePath "data" 12 = "data/keygen_data_12.json" /\
  12%Z = 12%Z.
Proof.
  split; [reflexivity|].
  apply (makeKeyGenDataFilePath_inj "data" 12 12). reflexivity.
Defined.

Section FixtureFiles.

Variable LocalPartySaveData : Type.
Variable Marshal : LocalPartySaveData -> result (list byte).
Variables openFails writeFails : benchgen.FileSystem -> string -> bool.

Let tryWrite :=
  benchgen.tryWriteKeyGenDataFile LocalPartySaveData Marshal openFails writeFails.

(** X18. The first fixture file written for a party stays: once
    [tryWriteKeyGenDataFile] has returned for a directory and an index,
    a further call for them returns too and leaves the file system as it
    is, whatever data it is given. *)
Theorem tryWriteKeyGenDataFile_first_write_stays (dir : string) (index : Z)
    (data1 data2 : LocalPartySaveData) (fs fs1 : benchgen.FileSystem) :
  tryWrite dir index data1 fs = (Returns tt, fs1) ->
  tryWrite dir index data2 fs1 = (Returns tt, fs1).
Proof.
  unfold tryWrite, benchgen.tryWriteKeyGenDataFile.
  destruct (fs (benchgen.makeKeyGenDataFilePath dir index)) as [[c|]|] eqn:Hfs.
  - intros H. injection H as <-. now rewrite Hfs.
  - discriminate.
  - destruct (openFails fs _); [discriminate|].
    destruct (Marshal data1) as [bz|e]; [|discriminate].
    destruct (writeFails _ _); [discriminate|].
    intros H. injection H as <-.
    now rewrite benchgenFacts.writeFile_same.
Qed.

(** X19. [tryWriteKeyGenDataFile] touches no path but the fixture file
    of its directory and index, however it ends; in particular the
    fixture file of another party of the same directory is left as it
    is. *)
Theorem tryWriteKeyGenDataFile_touches_one_file (dir : string) (index : Z)
    (data : LocalPartySaveData) (fs : benchgen.FileSystem) :
  (forall path,
     path <> benchgen.makeKeyGenDataFilePath dir index ->
     snd (tryWrite dir index data fs) path = fs path)
  /\
  (forall other,
     other <> index ->
     snd (tryWrite dir index data fs)
       (benchgen.makeKeyGenDataFilePath dir other)
     = fs (benchgen.makeKeyGenDataFilePath dir other)).
Proof.
  assert (Hpath : forall path,
            path <> benchgen.makeKeyGenDataFilePath dir index ->
            snd (tryWrite dir index data fs) path = fs path).
  { intros path Hne. unfold tryWrite, benchgen.tryWriteKeyGenDataFile.
    destruct (fs (benchgen.makeKeyGenDataFilePath dir index)) as [[c|]|];
      try reflexivity.
    destruct (openFails fs _); [reflexivity|].
    destruct (Marshal data) as [bz|e]; simpl.
    - destruct (writeFails _ _); simpl;
        now rewrite ?benchgenFacts.writeFile_other by assumption.
    - now rewrite benchgenFacts.writeFile_other by assumption. }
  split; [exact Hpath|].
  intros other Hne. apply Hpath.
  intros H. apply Hne. now apply benchgenFacts.path_inj in H.
Qed.

(** X20. The file is opened, and so created empty, before the data is
    marshalled: when the marshalling fails on a path that named nothing,
    the call panics and leaves an empty fixture file, and no later call
    for that directory and index writes into it. *)
Theorem tryWriteKeyGenDataFile_failed_marshal_leaves_empty_file
    (dir : string) (index : Z) (data : LocalPartySaveData)
    (fs : benchgen.FileSystem) (err : error) :
  let name := benchgen.makeKeyGenDataFilePath dir index in
  fs name = None ->
  openFails fs name = false ->
  Marshal data = Failed err ->
  exists reason after,
    tryWrite dir index data fs = (Panics reason, after) /\
    after name = Some (benchgen.File []) /\
    forall data', tryWrite dir index data' after = (Returns tt, after).
Proof.
  intros name Hnone Hopen Hmarshal. subst name.
  unfold tryWrite, benchgen.tryWriteKeyGenDataFile.
  rewrite Hnone, Hopen, Hmarshal.
  do 2 eexists. split; [reflexivity|].
  rewrite benchgenFacts.writeFile_same. split; [reflexivity|].
  intros data'. reflexivity.
Qed.

End FixtureFiles.

Lemma tryWriteKeyGenDataFile_first_write_stays_witness :
  let tryWrite :=
    benchgen.tryWriteKeyGenDataFile (list byte) (fun d => Ok d)
      (fun _ _ => false) (fun _ _ => false) in
  let fs1 := snd (tryWrite "data" 0%Z [Byte.x7b; Byte.x7d] (fun _ => None)) in
  tryWrite "data" 0%Z [Byte.x5b; Byte.x5d] fs1 = (Returns tt, fs1).
Proof.
  intros tryWrite fs1.
  apply (tryWriteKeyGenDataFile_first_write_stays (list byte) (fun d => Ok d)
           (fun _ _ => false) (fun _ _ => false) "data" 0%Z
           [Byte.x7b; Byte.x7d] [Byte.x5b; Byte.x5d] (fun _ => None) fs1).
  reflexivity.
Defined.

Lemma tryWriteKeyGenDataFile_touches_one_file_witness :
  let tryWrite :=
    benchgen.tryWriteKeyGenDataFile (list byte) (fun d => Ok d)
      (fun _ _ => false) (fun _ _ => false) in
  let fs := benchgen.writeFile (fun _ => None) "data/keygen_data_1.json"
              [Byte.x7b; Byte.x7d] in
  snd (tryWrite "data" 0%Z [Byte.x5b; Byte.x5d] fs) "data/keygen_data_1.json"
  = Some (benchgen.File [Byte.x7b; Byte.x7d]).
Proof.
  intros tryWrite fs.
  destruct (tryWriteKeyGenDataFile_touches_one_file (list byte) (fun d => Ok d)
              (fun _ _ => false) (fun _ _ => false) "data" 0%Z
              [Byte.x5b; Byte.x5d] fs) as [_ Hother].
  apply (Hother 1%Z). discriminate.
Defined.

Lemma tryWriteKeyGenDataFile_failed_marshal_leaves_empty_file_witness :
  let tryWrite :=
    benchgen.tryWriteKeyGenDataFile (list byte)
      (fun d => match d with
                | [] => Failed "json: unsupported value"
                | _ => Ok d
                end)
      (fun _ _ => false) (fun _ _ => false) in
  exists reason after,
    tryWrite "data" 0%Z [] (fun _ => None) = (Panics reason, after) /\
    after (benchgen.makeKeyGenDataFilePath "data" 0) = Some (benchgen.File []) /\
    forall data', tryWrite "data" 0%Z data' after = (Returns tt, after).
Proof.
  intros tryWrite.
  apply (tryWriteKeyGenDataFile_failed_marshal_leaves_empty_file (list byte)
           (fun d => match d with
                     | [] => Failed "json: unsupported value"
                     | _ => Ok d
                     end)
           (fun _ _ => false) (fun _ _ => false) "data" 0%Z []
           (fun _ => None) "json: unsupported value"); reflexivity.
Defined.

(** X21. When the party at position [i] has index [i], as the parties
    of [runKeyGen] do, no message is routed to the party that sent it,
    broadcast or not. *)
Theorem route_never_to_sender (parties : benchgen.Parties) (from : Z)
    (dest : option (list Z)) (targets : list Z) :
  (forall i P, benchgen.index parties i = Some P -> P = i) ->
  benchgen.route parties from dest = Returns targets ->
  ~ In from targets.
Proof.
  intros Hpos. unfold benchgen.route.
  destruct dest as [[|dest0 rest]|].
  - discriminate.
  - destruct (Z.eqb_spec dest0 from) as [|Hne]; [discriminate|].
    destruct (benchgen.index parties dest0) as [P|] eqn:HP; [|discriminate].
    intros H. injection H as <-. apply Hpos in HP. subst P.
    intros [Heq|[]]. congruence.
  - intros H. injection H as <-. rewrite filter_In.
    intros [_ Hneq]. now rewrite Z.eqb_refl in Hneq.
Qed.

Lemma route_never_to_sender_witness :
  ~ In 1%Z [0%Z; 2%Z] /\
  benchgen.route (benchgen.testParties 3) 1 None = Returns [0%Z; 2%Z].
Proof.
  split; [|reflexivity].
  apply (route_never_to_sender (benchgen.testParties 3) 1 None [0%Z; 2%Z]).
  - intros i P. apply benchgenFacts.testParties_index.
  - reflexivity.
Defined.

Lemma filter_absent (from : Z) (parties : list Z) :
  ~ In from parties ->
  filter (fun P => negb (P =? from)%Z) parties = parties.
Proof.
  induction parties as [|P parties IH]; intros Hnot; simpl; [reflexivity|].
  destruct (Z.eqb_spec P from) as [->|_]; simpl.
  - exfalso. apply Hnot. now left.
  - f_equal. apply IH. intros H. apply Hnot. now right.
Qed.

(** X22. A broadcast from one of the parties, when no two parties share
    an index, is routed to all the others, each once and in the order of
    the parties: the targets are the party list with the sender taken
    out of its place, one party less than there are. *)
Theorem route_broadcast_reaches_all_others (parties : benchgen.Parties)
    (from : Z) :
  NoDup parties -> In from parties ->
  exists targets,
    benchgen.route parties from None = Returns targets /\
    (exists before after,
       parties = before ++ from :: after /\ targets = before ++ after) /\
    (forall P, In P targets <-> In P parties /\ P <> from) /\
    NoDup targets /\
    S (length targets) = length parties.
Proof.
  intros Hnd Hin. eexists. split; [reflexivity|].
  split; [|split; [intros P; split; [intros HP; split|] | split]].
  - destruct (in_split _ _ Hin) as [before [after Hsplit]].
    exists before, after. split; [assumption|].
    rewrite Hsplit in Hnd. apply NoDup_remove_2 in Hnd.
    rewrite Hsplit, filter_app. simpl. rewrite Z.eqb_refl. simpl.
    rewrite !filter_absent; [reflexivity | |];
      intros H; apply Hnd; apply in_or_app; auto.
  - now apply filter_In in HP.
  - apply filter_In in HP. destruct HP as [_ HP].
    intros ->. now rewrite Z.eqb_refl in HP.
  - intros [HP Hne]. apply filter_In. split; [assumption|].
    now destruct (Z.eqb_spec P from).
  - now apply NoDup_filter.
  - now apply benchgenFacts.filter_without_one.
Qed.

Lemma route_broadcast_reaches_all_others_witness :
  exists targets,
    benchgen.route (benchgen.testParties 4) 2 None = Returns targets /\
    (exists before after,
       benchgen.testParties 4 = before ++ 2%Z :: after /\
       targets = before ++ after) /\
    (forall P, In P targets <-> In P (benchgen.testParties 4) /\ P <> 2%Z) /\
    NoDup targets /\
    S (length targets) = length (benchgen.testParties 4).
Proof.
  apply (route_broadcast_reaches_all_others (benchgen.testParties 4) 2).
  - repeat constructor; simpl; intuition discriminate.
  - simpl. auto.
Defined.

Example route_broadcast_on_four_parties :
  benchgen.route (benchgen.testParties 4) 2 None = Returns [0%Z; 1%Z; 3%Z].
Proof. reflexivity. Qed.

(** X23. A message with destinations goes to the first of them alone,
    whatever destinations follow: the routing returns the one party at
    that position, and it panics exactly when the first destination is
    the sender's index or is no position of the party list. *)
Theorem route_point_to_point (parties : benchgen.Parties) (from dest0 : Z)
    (rest : list Z) :
  let routed := benchgen.route parties from (Some (dest0 :: rest)) in
  routed = benchgen.route parties from (Some [dest0])
  /\
  ((exists reason, routed = Panics reason) <->
     (dest0 = from \/ dest0 < 0 \/ Z.of_nat (length parties) <= dest0)%Z)
  /\
  (forall targets,
     routed = Returns targets ->
     exists P, targets = [P] /\ nth_error parties (Z.to_nat dest0) = Some P).
Proof.
  intros routed. subst routed. split; [reflexivity|].
  unfold benchgen.route, benchgen.index.
  destruct (Z.eqb_spec dest0 from) as [Heq|Hne].
  - split.
    + split; [intros _; now left | intros _; eexists; reflexivity].
    + discriminate.
  - destruct (Z.ltb_spec dest0 0) as [Hneg|Hpos].
    + split.
      * split; [intros _; right; now left | intros _; eexists; reflexivity].
      * discriminate.
    + destruct (nth_error parties (Z.to_nat dest0)) as [P|] eqn:HP.
      * split.
        -- split; [intros [reason H]; discriminate|].
           intros [H|[H|H]]; [congruence | lia |].
           assert (Hnone : nth_error parties (Z.to_nat dest0) = None)
             by (apply nth_error_None; lia).
           congruence.
        -- intros targets H. injection H as <-. now exists P.
      * split.
        -- split; [|intros _; eexists; reflexivity].
           intros _. right. right. apply nth_error_None in HP. lia.
        -- discriminate.
Qed.
